(** * incidr: IPv4 addresses and CIDR blocks in four notations

    A shallow embedding of [incidr.py]: the class [Net] (constructor,
    the overloaded [&], [__str__]) and the helper [bits2int], together with
    models of the library routines they call ([int], [str.format],
    [socket.inet_aton], [socket.inet_ntoa], [struct.unpack]).

    Python text is a [string] whose characters are the code points 0..255;
    [bytes] objects are lists of [Z] in the range 0..255; exceptions are
    an explicit outcome, and the recursion of the constructor (a [Net]
    builds the [Net] of its mask and of its masked address) is bounded by
    a fuel argument that two units always satisfy. The command-line
    driver under [__main__] only feeds strings to the constructor and
    prints [str] of the result; it is not part of the embedding. *)

From Stdlib Require Import ZArith List String Ascii Bool Lia.
Import ListNotations.

Local Open Scope string_scope.
Local Open Scope Z_scope.

(** ** Outcomes of a Python call *)

Inductive exn_class : Type :=
| ValueError
| OSError
| StructError
| IndexError.

Inductive outcome (A : Type) : Type :=
| Ret (a : A)
| Raise (cls : exn_class) (msg : string)
| OutOfFuel.

Arguments Ret {A} a.
Arguments Raise {A} cls msg.
Arguments OutOfFuel {A}.

Definition bind {A B : Type} (c : outcome A) (k : A -> outcome B) : outcome B :=
  match c with
  | Ret a => k a
  | Raise cls msg => Raise cls msg
  | OutOfFuel => OutOfFuel
  end.

Notation "x <- c1 ;; c2" := (bind c1 (fun x => c2))
  (at level 61, c1 at next level, right associativity).
Notation "' pat <- c1 ;; c2" := (bind c1 (fun x => match x with pat => c2 end))
  (at level 61, pat pattern, c1 at next level, right associativity).

(** The error kinds of the specification: [InvalidFormat] is Python's
    [ValueError], [InvalidAddress] is the [OSError] of [socket.inet_aton]. *)
Definition InvalidFormat : exn_class := ValueError.
Definition InvalidAddress : exn_class := OSError.

Definition raises {A : Type} (c : outcome A) (k : exn_class) : Prop :=
  exists msg, c = Raise k msg.

Fixpoint mapM {A B : Type} (f : A -> outcome B) (l : list A) : outcome (list B) :=
  match l with
  | [] => Ret []
  | x :: l' => y <- f x ;; ys <- mapM f l' ;; Ret (y :: ys)
  end.

(** ** Characters and strings *)

Definition ord (c : ascii) : Z := Z.of_N (N_of_ascii c).

Definition nl : string := String (ascii_of_nat 10) "".
Definition dquote : string := String (ascii_of_nat 34) "".

(** [c in s] for a one-character [c]. *)
Fixpoint contains (c : ascii) (s : string) : bool :=
  match s with
  | "" => false
  | String a s' => if Ascii.eqb a c then true else contains c s'
  end.

(** [s.count(c)]. *)
Fixpoint count (c : ascii) (s : string) : nat :=
  match s with
  | "" => O
  | String a s' => if Ascii.eqb a c then S (count c s') else count c s'
  end.

(** [s.split(c)]. *)
Fixpoint split (c : ascii) (s : string) : list string :=
  match s with
  | "" => [""]
  | String a s' =>
      if Ascii.eqb a c then "" :: split c s'
      else match split c s' with
           | h :: t => String a h :: t
           | [] => [String a ""]
           end
  end.

(** [sep.join(l)]. *)
Fixpoint join (sep : string) (l : list string) : string :=
  match l with
  | [] => ""
  | [x] => x
  | x :: l' => x ++ sep ++ join sep l'
  end.

(** [c * n]. *)
Fixpoint replicate (n : nat) (c : ascii) : string :=
  match n with
  | O => ""
  | S n' => String c (replicate n' c)
  end.

(** ['{:>w}'.format(s)] with fill character [fill]. *)
Definition rjust (w : nat) (fill : ascii) (s : string) : string :=
  replicate (w - String.length s) fill ++ s.

Fixpoint forall_chars (p : ascii -> bool) (s : string) : bool :=
  match s with
  | "" => true
  | String a s' => p a && forall_chars p s'
  end.

Fixpoint exists_char (p : ascii -> bool) (s : string) : bool :=
  match s with
  | "" => false
  | String a s' => p a || exists_char p s'
  end.

Definition in_range (lo hi : Z) (c : ascii) : bool :=
  (lo <=? ord c) && (ord c <=? hi).

(** [\d] of [re] on the code points 0..255, and C's [isdigit]. *)
Definition is_digit (c : ascii) : bool := in_range 48 57 c.

(** [[0-9a-f]] under [(?i)]. *)
Definition is_hex (c : ascii) : bool :=
  in_range 48 57 c || in_range 97 102 c || in_range 65 70 c.

(** C's [isspace] in the C locale. *)
Definition c_isspace (c : ascii) : bool :=
  in_range 9 13 c || (ord c =? 32).

(** The white space [int] strips from a [str]. *)
Definition py_isspace (c : ascii) : bool :=
  in_range 9 13 c || in_range 28 32 c || (ord c =? 133) || (ord c =? 160).

(** ** Numerals *)

(** Value of a character as a digit, letters counting from ten. *)
Definition digit_val (c : ascii) : option Z :=
  if in_range 48 57 c then Some (ord c - 48)
  else if in_range 97 122 c then Some (ord c - 87)
  else if in_range 65 90 c then Some (ord c - 55)
  else None.

Definition is_digit_of (base : Z) (c : ascii) : bool :=
  match digit_val c with
  | Some d => d <? base
  | None => false
  end.

Definition dval (c : ascii) : Z :=
  match digit_val c with
  | Some d => d
  | None => 0
  end.

(** The digit characters of the lower-case renderings. *)
Definition digit_char (d : Z) : ascii :=
  if d <? 10 then ascii_of_N (Z.to_N (d + 48)) else ascii_of_N (Z.to_N (d + 87)).

Fixpoint to_digits_aux (base : Z) (fuel : nat) (n : Z) (acc : string) : string :=
  match fuel with
  | O => acc
  | S fuel' =>
      let acc' := String (digit_char (n mod base)) acc in
      if n / base =? 0 then acc' else to_digits_aux base fuel' (n / base) acc'
  end.

(** The numeral of a natural number [n] in [base], most significant digit
    first, without leading zeros. *)
Definition to_digits (base : Z) (n : Z) : string :=
  to_digits_aux base (S (Z.to_nat (Z.log2 n))) n "".

(** [str(n)]. *)
Definition py_str (n : Z) : string :=
  if n <? 0 then "-" ++ to_digits 10 (- n) else to_digits 10 n.

(** ['{:0wd}'.format(n)], ['{:0wx}'.format(n)] and ['{:0wb}'.format(n)]:
    zero padding goes between the sign and the digits. *)
Definition format_int (w : nat) (base : Z) (n : Z) : string :=
  if n <? 0 then "-" ++ rjust (w - 1) "0" (to_digits base (- n))
  else rjust w "0" (to_digits base n).

(** Value of a string of digits, read from the left with accumulator [acc]. *)
Fixpoint digits_value (base : Z) (acc : Z) (s : string) : Z :=
  match s with
  | "" => acc
  | String c s' => digits_value base (acc * base + dval c) s'
  end.

(** Reads the longest prefix of digits of [base]; returns its value and what
    is left. *)
Fixpoint parse_digits (base : Z) (acc : Z) (s : string) : Z * string :=
  match s with
  | "" => (acc, "")
  | String c s' =>
      if is_digit_of base c then parse_digits base (acc * base + dval c) s'
      else (acc, s)
  end.

(** *** Python's [int(text, base)] *)

Fixpoint lstrip (p : ascii -> bool) (s : string) : string :=
  match s with
  | "" => ""
  | String c s' => if p c then lstrip p s' else s
  end.

Fixpoint rstrip (p : ascii -> bool) (s : string) : string :=
  match s with
  | "" => ""
  | String c s' =>
      match rstrip p s' with
      | "" => if p c then "" else String c ""
      | t => String c t
      end
  end.

(** Digits with single underscores between them; [need] says that a digit
    has to come next. *)
Fixpoint int_digits (base : Z) (acc : Z) (need : bool) (s : string) : option Z :=
  match s with
  | "" => if need then None else Some acc
  | String c s' =>
      if Ascii.eqb c "_" then
        if need then None else int_digits base acc true s'
      else if is_digit_of base c then int_digits base (acc * base + dval c) false s'
      else None
  end.

Definition int_unsigned (base : Z) (s : string) : option Z :=
  match s with
  | String "0" (String p s') =>
      if (base =? 2) && (Ascii.eqb p "b" || Ascii.eqb p "B") then
        match s' with
        | String "_" s'' => int_digits base 0 true s''
        | _ => int_digits base 0 true s'
        end
      else int_digits base 0 true s
  | _ => int_digits base 0 true s
  end.

(** [int(s, base)] for [base] 10 or 2 ([None] stands for its [ValueError]):
    surrounding white space, an optional sign, digits with optional single
    underscores, and for base 2 an optional [0b] prefix. *)
Definition py_int_base (base : Z) (s : string) : option Z :=
  match rstrip py_isspace (lstrip py_isspace s) with
  | String "-" t => option_map Z.opp (int_unsigned base t)
  | String "+" t => int_unsigned base t
  | t => int_unsigned base t
  end.

Definition py_int (s : string) : option Z := py_int_base 10 s.

(** ** The socket and struct routines *)

(** C's [strtoul(cp, &endp, 0)] on a string that starts with a digit: a
    [0x] or [0X] followed by a hexadecimal digit announces base 16, any other
    leading [0] base 8, and the longest run of digits of that base is read.
    The value is not truncated here: [inet_aton] rejects everything above
    [0xffffffff], which covers the overflow report as well. *)
Definition strtoul0 (cp : string) : Z * string :=
  match cp with
  | String "0" (String x rest) =>
      if (Ascii.eqb x "x" || Ascii.eqb x "X")
         && match rest with
            | String h _ => is_digit_of 16 h
            | "" => false
            end
      then parse_digits 16 0 rest
      else parse_digits 8 0 cp
  | String "0" "" => parse_digits 8 0 cp
  | _ => parse_digits 10 0 cp
  end.

(** The loop of [inet_aton]: numbers separated by dots, [slots] counting the
    bytes that may still be stored before the last number. Returns the
    stored bytes, the last number and the rest of the text. *)
Fixpoint aton_parts (slots : nat) (cp : string) (parts : list Z)
  : option (list Z * Z * string) :=
  match cp with
  | "" => None
  | String c _ =>
      if negb (is_digit c) then None
      else
        let '(val, rest) := strtoul0 cp in
        if 4294967295 <? val then None
        else
          match rest with
          | String "." rest' =>
              match slots with
              | O => None
              | S slots' =>
                  if 255 <? val then None
                  else aton_parts slots' rest' (parts ++ [val])
              end
          | _ => Some (parts, val, rest)
          end
  end.

(** The four bytes of a 32-bit value in network order. *)
Definition be_bytes (val : Z) : list Z :=
  [ Z.land (Z.shiftr val 24) 255; Z.land (Z.shiftr val 16) 255;
    Z.land (Z.shiftr val 8) 255; Z.land val 255 ].

(** The 32-bit unsigned value of four bytes in network order. *)
Definition be_value (raw : list Z) : Z :=
  256 ^ 3 * nth 0 raw 0 + 256 ^ 2 * nth 1 raw 0 + 256 ^ 1 * nth 2 raw 0
  + 256 ^ 0 * nth 3 raw 0.

Fixpoint map2 {A B C : Type} (f : A -> B -> C) (l1 : list A) (l2 : list B) : list C :=
  match l1, l2 with
  | a :: l1', b :: l2' => f a b :: map2 f l1' l2'
  | _, _ => []
  end.

(** The largest last number after 0, 1, 2 and 3 stored bytes. *)
Definition aton_max : list Z := [ 4294967295; 16777215; 65535; 255 ].

(** The C library's [inet_aton] (the version that ignores what follows a
    white space after the address); [None] is its return value 0. *)
Definition inet_aton (cp : string) : option (list Z) :=
  match aton_parts 3 cp [] with
  | None => None
  | Some (parts, val, rest) =>
      let trailing_ok :=
        match rest with
        | "" => true
        | String c _ => in_range 0 127 c && c_isspace c
        end in
      if negb trailing_ok then None
      else if nth (List.length parts) aton_max 0 <? val then None
      else Some (map2 Z.lor (parts ++ repeat 0 (4 - List.length parts))
                       (be_bytes val))
  end.

Definition nul : ascii := ascii_of_nat 0.

(** [socket.inet_aton(s)]: the text must not hold a NUL character, and the
    C routine decides the rest. *)
Definition socket_inet_aton (s : string) : outcome (list Z) :=
  if contains nul s then Raise ValueError "embedded null character"
  else match inet_aton s with
       | Some raw => Ret raw
       | None => Raise OSError "illegal IP address string passed to inet_aton"
       end.

(** [socket.inet_ntoa(raw)]. *)
Definition socket_inet_ntoa (raw : list Z) : outcome string :=
  if (List.length raw =? 4)%nat then Ret (join "." (map py_str raw))
  else Raise OSError "packed IP wrong length for inet_ntoa".

(** [struct.unpack('B', raw[x:x+1])[0]]. *)
Definition unpack_B (raw : list Z) (x : nat) : outcome Z :=
  match nth_error raw x with
  | Some b => Ret b
  | None => Raise StructError "unpack requires a buffer of 1 bytes"
  end.

(** [newnet[o] = v] on a [bytearray]. *)
Definition bytearray_set (newnet : list Z) (o : nat) (v : Z) : outcome (list Z) :=
  if (o <? List.length newnet)%nat then
    if (0 <=? v) && (v <? 256) then Ret (firstn o newnet ++ v :: skipn (S o) newnet)%list
    else Raise ValueError "byte must be in range(0, 256)"
  else Raise IndexError "bytearray index out of range".

(** ** The class Net *)

Inductive fmt : Type := quad | bin | dec | hex.

(** [Net.all_formats]. *)
Definition all_formats : list fmt := [ quad; bin; dec; hex ].

Record fmt_entry : Type := mkEntry { as_string : string; show : bool }.

(** [self.formats], a dictionary with the four keys of [fmt]. *)
Record formats_t : Type := mkFormats {
  f_quad : fmt_entry;
  f_bin : fmt_entry;
  f_dec : fmt_entry;
  f_hex : fmt_entry
}.

Definition get_fmt (fs : formats_t) (k : fmt) : fmt_entry :=
  match k with
  | quad => f_quad fs
  | bin => f_bin fs
  | dec => f_dec fs
  | hex => f_hex fs
  end.

#[local] Unset Elimination Schemes.

Inductive Net : Type := mkNet {
  orig : string;
  mask : option Net;
  masked : option Net;
  raw : list Z;
  formats : formats_t
}.

#[local] Set Elimination Schemes.

(** The four [show_] arguments of the constructor, in the order of its
    signature. *)
Record flags : Type := mkFlags {
  show_quad : bool;
  show_bin : bool;
  show_dec : bool;
  show_hex : bool
}.

Definition default_flags : flags := mkFlags true true true true.

(** [(self.formats[fmt]['show'] for fmt in self.all_formats)] as arguments. *)
Definition shows (n : Net) : flags :=
  match map (fun k => show (get_fmt (formats n) k)) all_formats with
  | [q; b; d; h] => mkFlags q b d h
  | _ => default_flags
  end.

(** An argument that is an [int] or a [str]. *)
Inductive int_or_str : Type :=
| PInt (n : Z)
| PStr (s : string).

(** [bits2int(mask)]. *)
Definition bits2int (mask : int_or_str) : outcome string :=
  match match mask with
        | PInt n => Ret n
        | PStr s =>
            match py_int s with
            | Some n => Ret n
            | None => Raise ValueError ("Invalid netmask, non-numeric: " ++ s)
            end
        end
  with
  | Ret m =>
      if (1 <=? m) && (m <=? 32) then
        match py_int_base 2 (replicate (Z.to_nat m) "1" ++ replicate (Z.to_nat (32 - m)) "0") with
        | Some v => Ret (py_str v)
        | None => Raise ValueError "invalid literal for int() with base 2"
        end
      else
        Raise ValueError ("Invalid netmask, outside of 1 <= m <= 32 range: " ++ py_str m)
  | Raise cls msg => Raise cls msg
  | OutOfFuel => OutOfFuel
  end.

Section Constructor.

(** The constructor as seen from its own body: the recursive calls
    [Net(netmask, ...)] and, inside [&], [Net(socket.inet_ntoa(...), ...)]. *)
Variable ctor : string -> flags -> outcome Net.

(** The loop of [__and__] over [range(4)]. *)
Fixpoint and_loop (os : list nat) (self other : Net) (newnet : list Z)
  : outcome (list Z) :=
  match os with
  | [] => Ret newnet
  | o :: os' =>
      x <- unpack_B (raw self) o ;;
      y <- unpack_B (raw other) o ;;
      newnet' <- bytearray_set newnet o (Z.land x y) ;;
      and_loop os' self other newnet'
  end.

(** [Net.__and__(self, other)]. *)
Definition Net_and_with (self other : Net) : outcome Net :=
  newnet <- socket_inet_aton "0.0.0.0" ;;
  newnet <- and_loop (seq 0 4) self other newnet ;;
  text <- socket_inet_ntoa newnet ;;
  ctor text (shows self).

(** Lines 46 to 78 of the constructor: the base address text and the mask. *)
Definition dispatch (net : string) (fl : flags) : outcome (string * option Net) :=
  if contains "/" net then
    if (1 <? count "/" net)%nat then
      Raise ValueError
        ("Invalid CIDR block (multiple " ++ dquote ++ "/" ++ dquote ++ "es): " ++ net)
    else
      match split "/" net with
      | [base_address; netmask] =>
          m <- ctor netmask fl ;;
          Ret (base_address, Some m)
      | [_] => Raise ValueError "not enough values to unpack (expected 2, got 1)"
      | _ => Raise ValueError "too many values to unpack (expected 2)"
      end
  else if negb (contains "." net) then
    if (String.length net <=? 10)%nat
       && exists_char is_digit net
       && negb (exists_char (fun c => negb (is_digit c)) net)
    then
      match py_int net with
      | Some n =>
          if n <=? 32 then
            base_address <- bits2int (PStr net) ;;
            Ret (base_address, None)
          else Ret (net, None)
      | None => Raise ValueError "invalid literal for int() with base 10"
      end
    else if (String.length net <=? 8)%nat
            && negb (exists_char (fun c => negb (is_hex c)) net)
    then Ret ("0x" ++ net, None)
    else
      Raise ValueError ("Invalid CIDR block (invalid numeric value): " ++ net)
  else Ret (net, None).

(** Lines 88 to 97: the raw bytes, the four renderings and the masked
    address. *)
Definition populate (net : string) (fl : flags) (base_address : string)
           (m : option Net) : outcome Net :=
  rw <- socket_inet_aton base_address ;;
  text <- socket_inet_ntoa rw ;;
  let s_quad := join "." (map (rjust 3 " ") (split "." text)) in
  terms <- mapM (fun x => b <- unpack_B rw x ;; Ret (256 ^ (3 - Z.of_nat x) * b))
                (seq 0 4) ;;
  let s_dec := format_int 10 10 (fold_left Z.add terms 0) in
  d <- match py_int s_dec with
       | Some d => Ret d
       | None => Raise ValueError "invalid literal for int() with base 10"
       end ;;
  let s_hex := format_int 8 16 d in
  octets <- mapM (fun o => match py_int o with
                           | Some v => Ret (format_int 8 2 v)
                           | None => Raise ValueError "invalid literal for int() with base 10"
                           end)
                 (split "." s_quad) ;;
  let s_bin := join " " octets in
  let self :=
    mkNet net m None rw
          (mkFormats (mkEntry s_quad (show_quad fl)) (mkEntry s_bin (show_bin fl))
                     (mkEntry s_dec (show_dec fl)) (mkEntry s_hex (show_hex fl))) in
  match m with
  | Some msk =>
      r <- Net_and_with self msk ;;
      Ret (mkNet (orig self) (mask self) (Some r) (raw self) (formats self))
  | None => Ret self
  end.

End Constructor.

(** [Net.__init__]: [Net_init fuel net fl] is [Net(net, *fl)]. *)
Fixpoint Net_init (fuel : nat) (net : string) (fl : flags) : outcome Net :=
  match fuel with
  | O => OutOfFuel
  | S fuel' =>
      '(base_address, m) <- dispatch (Net_init fuel') net fl ;;
      populate (Net_init fuel') net fl base_address m
  end.

(** [self & other]. *)
Definition Net_and (fuel : nat) (self other : Net) : outcome Net :=
  Net_and_with (Net_init fuel) self other.

(** [Net.__str__]. *)
Fixpoint Net_str (n : Net) : string :=
  let the_string :=
    join "  <=>  "
         (map (fun k => as_string (get_fmt (formats n) k))
              (filter (fun k => show (get_fmt (formats n) k)) all_formats)) in
  let the_string :=
    match mask n with
    | Some m => ("   " ++ the_string) ++ (nl ++ " & ") ++ Net_str m
    | None => the_string
    end in
  match masked n with
  | Some r => the_string ++ (nl ++ " = ") ++ Net_str r
  | None => the_string
  end.

Definition raw_of (c : outcome Net) : outcome (list Z) := n <- c ;; Ret (raw n).


(** ** The command-line driver *)

(** What [argparse] hands to the driver: the positional [addresses], the
    repeatable [--mask] ([None] when the option is absent) and the four
    format switches. *)
Record cli_args : Type := mkArgs {
  args_addresses : list string;
  args_mask : option (list string);
  args_quad : bool;
  args_binary : bool;
  args_decimal : bool;
  args_hexadecimal : bool
}.

(** Lines 178 to 180 and the [*formats] of line 200: no switch leaves the
    defaults of the constructor, any switch passes the four of them. *)
Definition cli_flags (args : cli_args) : flags :=
  if args_quad args || args_binary args || args_decimal args || args_hexadecimal args
  then mkFlags (args_quad args) (args_binary args) (args_decimal args)
               (args_hexadecimal args)
  else default_flags.

(** [print(text)]: the standard output is the list of the texts printed so
    far, one entry for each call. *)
Definition print (line : string) (out : list string) : list string :=
  (out ++ [line])%list.

(** A [for] loop whose body may let an exception escape. *)
Fixpoint for_each (body : string -> list string -> list string * outcome unit)
         (items : list string) (out : list string) : list string * outcome unit :=
  match items with
  | [] => (out, Ret tt)
  | x :: items' =>
      match body x out with
      | (out', Ret _) => for_each body items' out'
      | (out', Raise cls msg) => (out', Raise cls msg)
      | (out', OutOfFuel) => (out', OutOfFuel)
      end
  end.

(** Lines 196 to 208: the report of one specification. [ValueError] and
    [OSError] ([socket.error] is the latter) are caught and reported, any
    other exception escapes. *)
Definition report (fuel : nat) (fl : flags) (net : string) (out : list string)
  : list string * outcome unit :=
  let out := print (net ++ " :") out in
  let out := print (replicate (String.length net) "=") out in
  match Net_init fuel net fl with
  | Ret this_net => (print "" (print (Net_str this_net) out), Ret tt)
  | Raise cls msg =>
      match cls with
      | ValueError | OSError =>
          (print "" (print "Skipping" (print ("Error: " ++ msg) out)), Ret tt)
      | _ => (out, Raise cls msg)
      end
  | OutOfFuel => (out, OutOfFuel)
  end.

(** Lines 184 to 193: the specifications made of one positional argument. *)
Definition cidrs_of (args : cli_args) (cidr : string) : list string :=
  match args_mask args with
  | Some (m :: ms) =>
      if negb (contains "/" cidr) then map (fun mask => cidr ++ "/" ++ mask) (m :: ms)
      else [cidr]
  | _ => [cidr]
  end.

(** The body of [if __name__ == "__main__"] after the arguments are parsed. *)
Definition main (fuel : nat) (args : cli_args) (out : list string)
  : list string * outcome unit :=
  for_each (fun cidr out => for_each (report fuel (cli_flags args)) (cidrs_of args cidr) out)
           (args_addresses args) out.

(** An outcome that the driver survives: a value, or one of the two
    exceptions it catches. *)
Definition caught {A : Type} (c : outcome A) : Prop :=
  match c with
  | Ret _ => True
  | Raise ValueError _ => True
  | Raise OSError _ => True
  | _ => False
  end.

(** The text of the quad, bin, dec and hex renderings of a [Net]. *)
Definition text_of (n : Net) (k : fmt) : string := as_string (get_fmt (formats n) k).

(** ** Auxiliary definitions of the proofs *)

(** The values of a byte and the mask lengths, for proofs by enumeration. *)
Definition byte_range : list Z := map Z.of_nat (seq 0 256).
Definition masklen_range : list Z := map Z.of_nat (seq 1 32).

(** A [bytes] object of a [Net]: four numbers below 256. *)
Definition bytes_ok (l : list Z) : Prop :=
  List.length l = 4%nat /\ Forall (fun b => 0 <= b < 256) l.

(** The four renderings of lines 89 to 95 as functions of the raw bytes. *)
Definition rendering (rw : list Z) (fl : flags) : formats_t :=
  mkFormats
    (mkEntry (join "." (map (fun b => rjust 3 " " (py_str b)) rw)) (show_quad fl))
    (mkEntry (join " " (map (format_int 8 2) rw)) (show_bin fl))
    (mkEntry (format_int 10 10 (be_value rw)) (show_dec fl))
    (mkEntry (format_int 8 16 (be_value rw)) (show_hex fl)).

(** The line of [__str__] before the mask is looked at. *)
Definition primary_line (n : Net) : string :=
  join "  <=>  "
       (map (fun k => as_string (get_fmt (formats n) k))
            (filter (fun k => show (get_fmt (formats n) k)) [quad; bin; dec; hex])).

(** The lower-case hexadecimal digits. *)
Definition is_lower_hex (c : ascii) : bool :=
  in_range 48 57 c || in_range 97 102 c.

(** Two values used as examples: the address 1.2.3.4 and the mask of
    length 24, as the constructor builds them. *)
Definition net_1_2_3_4 : Net :=
  mkNet "1.2.3.4" None None [1; 2; 3; 4] (rendering [1; 2; 3; 4] default_flags).

Definition net_mask_24 : Net :=
  mkNet "24" None None [255; 255; 255; 0] (rendering [255; 255; 255; 0] default_flags).

(** * Properties *)

(** ** The examples of the documentation *)

Example str_1_2_3_4_slash_24 :
  exists v,
    Net_init 2 "1.2.3.4/24" default_flags = Ret v
    /\ Net_str v
       = "     1.  2.  3.  4  <=>  00000001 00000010 00000011 00000100  <=>  0016909060  <=>  01020304"
         ++ nl
         ++ " & 255.255.255.  0  <=>  11111111 11111111 11111111 00000000  <=>  4294967040  <=>  ffffff00"
         ++ nl
         ++ " =   1.  2.  3.  0  <=>  00000001 00000010 00000011 00000000  <=>  0016909056  <=>  01020300".
Proof. eexists. split; vm_compute; reflexivity. Qed.

Example str_quad_and_hex_only :
  exists v,
    Net_init 2 "10.0.0.1" (mkFlags true false false true) = Ret v
    /\ Net_str v = " 10.  0.  0.  1  <=>  0a000001".
Proof. eexists. split; vm_compute; reflexivity. Qed.

Example bits2int_24 : bits2int (PInt 24) = Ret "4294967040" /\ bits2int (PStr "24") = Ret "4294967040".
Proof. split; vm_compute; reflexivity. Qed.

Example inet_aton_forms :
  inet_aton "1.2.3.4" = Some [1; 2; 3; 4]
  /\ inet_aton "1.2.0x10" = Some [1; 2; 0; 16]
  /\ inet_aton "010.1" = Some [8; 0; 0; 1]
  /\ inet_aton "4294967040" = Some [255; 255; 255; 0]
  /\ inet_aton "1.2.3.4 x" = Some [1; 2; 3; 4]
  /\ inet_aton "1.2.3.256" = None
  /\ inet_aton "1.2.3.4.5" = None
  /\ inet_aton "1.2.3." = None
  /\ inet_aton "0x" = None.
Proof. repeat split; vm_compute; reflexivity. Qed.

(** ** Outcomes *)

Lemma bind_Ret {A B : Type} (a : A) (k : A -> outcome B) : bind (Ret a) k = k a.
Proof. reflexivity. Qed.

Lemma bind_inv {A B : Type} (c : outcome A) (k : A -> outcome B) (b : B) :
  bind c k = Ret b -> exists a, c = Ret a /\ k a = Ret b.
Proof.
  destruct c as [a | cls msg | ]; simpl; intros H; try discriminate.
  exists a. split; [reflexivity | exact H].
Qed.

(** ** Quantifying over a byte by enumeration *)

Lemma forall_byte (P : Z -> bool) :
  forallb P byte_range = true -> forall b, 0 <= b < 256 -> P b = true.
Proof.
  intros H b Hb. rewrite forallb_forall in H. apply H.
  unfold byte_range. apply in_map_iff. exists (Z.to_nat b). split.
  - apply Z2Nat.id. lia.
  - apply in_seq. lia.
Qed.

Lemma forall_masklen (P : Z -> bool) :
  forallb P masklen_range = true -> forall n, 1 <= n <= 32 -> P n = true.
Proof.
  intros H n Hn. rewrite forallb_forall in H. apply H.
  unfold masklen_range. apply in_map_iff. exists (Z.to_nat n). split.
  - apply Z2Nat.id. lia.
  - apply in_seq. lia.
Qed.

Ltac ascii_cases c := destruct c as [[] [] [] [] [] [] [] []].

(** ** Strings *)

Lemma append_nil_r (s : string) : s ++ "" = s.
Proof. induction s as [| c s IH]; simpl; [reflexivity | now rewrite IH]. Qed.

Lemma append_assoc (s t u : string) : (s ++ t) ++ u = s ++ (t ++ u).
Proof. induction s as [| c s IH]; simpl; [reflexivity | now rewrite IH]. Qed.

Lemma length_append (s t : string) :
  String.length (s ++ t) = (String.length s + String.length t)%nat.
Proof. induction s as [| c s IH]; simpl; [reflexivity | now rewrite IH]. Qed.

Lemma length_replicate (n : nat) (c : ascii) : String.length (replicate n c) = n.
Proof. induction n as [| n IH]; simpl; [reflexivity | now rewrite IH]. Qed.

Lemma contains_append (c : ascii) (s t : string) :
  contains c (s ++ t) = contains c s || contains c t.
Proof.
  induction s as [| a s IH]; simpl; [reflexivity |].
  destruct (Ascii.eqb a c); [reflexivity | exact IH].
Qed.

Lemma count_append (c : ascii) (s t : string) :
  count c (s ++ t) = (count c s + count c t)%nat.
Proof.
  induction s as [| a s IH]; simpl; [reflexivity |].
  destruct (Ascii.eqb a c); simpl; now rewrite IH.
Qed.

Lemma contains_count (c : ascii) (s : string) :
  contains c s = negb (count c s =? 0)%nat.
Proof.
  induction s as [| a s IH]; simpl; [reflexivity |].
  destruct (Ascii.eqb a c); [reflexivity | exact IH].
Qed.

Lemma contains_false_count (c : ascii) (s : string) :
  contains c s = false <-> count c s = O.
Proof.
  rewrite contains_count. destruct (count c s); simpl; split; intros H;
    try reflexivity; discriminate.
Qed.

Lemma forall_chars_append (p : ascii -> bool) (s t : string) :
  forall_chars p (s ++ t) = forall_chars p s && forall_chars p t.
Proof.
  induction s as [| a s IH]; simpl; [reflexivity |].
  rewrite IH. now rewrite andb_assoc.
Qed.

Lemma forall_chars_replicate (p : ascii -> bool) (n : nat) (c : ascii) :
  p c = true -> forall_chars p (replicate n c) = true.
Proof. intros H. induction n as [| n IH]; simpl; [reflexivity | now rewrite H, IH]. Qed.

Lemma forall_chars_impl (p q : ascii -> bool) (s : string) :
  (forall c, p c = true -> q c = true) ->
  forall_chars p s = true -> forall_chars q s = true.
Proof.
  intros Hpq. induction s as [| a s IH]; simpl; [reflexivity |].
  intros H. apply andb_prop in H. destruct H as [Ha Hs].
  now rewrite (Hpq a Ha), (IH Hs).
Qed.

Lemma forall_not_exists (p : ascii -> bool) (s : string) :
  negb (exists_char (fun c => negb (p c)) s) = forall_chars p s.
Proof.
  induction s as [| a s IH]; simpl; [reflexivity |].
  rewrite negb_orb, negb_involutive, IH. reflexivity.
Qed.

Lemma exists_digit_nonempty (s : string) :
  forall_chars is_digit s = true -> exists_char is_digit s = negb (String.eqb s "").
Proof.
  destruct s as [| a s]; simpl; [reflexivity |].
  intros H. apply andb_prop in H. destruct H as [Ha _]. now rewrite Ha.
Qed.

Lemma forall_chars_contains (p : ascii -> bool) (c : ascii) (s : string) :
  p c = false -> forall_chars p s = true -> contains c s = false.
Proof.
  intros Hc. induction s as [| a s IH]; simpl; [reflexivity |].
  intros H. apply andb_prop in H. destruct H as [Ha Hs].
  destruct (Ascii.eqb_spec a c) as [-> | _]; [congruence | exact (IH Hs)].
Qed.

(** Splitting at a character undoes joining pieces that do not hold it. *)
Lemma split_none (c : ascii) (s : string) : contains c s = false -> split c s = [s].
Proof.
  induction s as [| a s IH]; simpl; [reflexivity |].
  destruct (Ascii.eqb a c); [discriminate |].
  intros H. now rewrite (IH H).
Qed.

Lemma split_cons (c : ascii) (s t : string) :
  contains c s = false -> split c (s ++ String c t) = s :: split c t.
Proof.
  induction s as [| a s IH]; simpl.
  - intros _. now rewrite Ascii.eqb_refl.
  - destruct (Ascii.eqb a c); [discriminate |].
    intros H. now rewrite (IH H).
Qed.

Lemma split_join4 (c : ascii) (s0 s1 s2 s3 : string) :
  contains c s0 = false -> contains c s1 = false ->
  contains c s2 = false -> contains c s3 = false ->
  split c (join (String c "") [s0; s1; s2; s3]) = [s0; s1; s2; s3].
Proof.
  intros H0 H1 H2 H3. simpl.
  rewrite (split_cons c s0 _ H0), (split_cons c s1 _ H1), (split_cons c s2 _ H2).
  now rewrite (split_none c s3 H3).
Qed.

(** A string with exactly one occurrence of [c] splits in two pieces free
    of [c] that give the string back. *)
Lemma split_count_one (c : ascii) (s : string) :
  count c s = 1%nat ->
  exists b m, split c s = [b; m] /\ s = b ++ String c m
              /\ contains c b = false /\ contains c m = false.
Proof.
  induction s as [| a s IH]; simpl; [discriminate |].
  destruct (Ascii.eqb_spec a c) as [-> | Hac].
  - intros H. injection H as H. apply contains_false_count in H.
    exists "", s. rewrite (split_none c s H). simpl. repeat split; auto.
  - intros H. destruct (IH H) as (b & m & Hs & -> & Hb & Hm).
    exists (String a b), m. rewrite Hs. simpl.
    apply Ascii.eqb_neq in Hac. rewrite Hac. repeat split; auto.
Qed.

(** ** Numerals *)

Lemma digit_val_digit_char (d : Z) :
  0 <= d < 16 -> digit_val (digit_char d) = Some d.
Proof.
  intros H.
  assert (Hd : d = 0 \/ d = 1 \/ d = 2 \/ d = 3 \/ d = 4 \/ d = 5 \/ d = 6 \/ d = 7
               \/ d = 8 \/ d = 9 \/ d = 10 \/ d = 11 \/ d = 12 \/ d = 13 \/ d = 14
               \/ d = 15) by lia.
  repeat (destruct Hd as [-> | Hd]; [reflexivity |]). subst d. reflexivity.
Qed.

Lemma digit_char_ok (base d : Z) :
  base <= 16 -> 0 <= d < base ->
  is_digit_of base (digit_char d) = true /\ dval (digit_char d) = d.
Proof.
  intros Hb Hd. unfold is_digit_of, dval.
  rewrite digit_val_digit_char by lia. split; [apply Z.ltb_lt; lia | reflexivity].
Qed.

Lemma digit_val_nonneg (c : ascii) : 0 <= dval c.
Proof.
  unfold dval, digit_val, in_range.
  repeat match goal with
         | |- context [if ?b then _ else _] => destruct b eqn:?
         end; lia.
Qed.

Lemma to_digits_aux_app (base : Z) (fuel : nat) :
  forall n acc, to_digits_aux base fuel n acc = to_digits_aux base fuel n "" ++ acc.
Proof.
  induction fuel as [| fuel IH]; intros n acc; simpl; [reflexivity |].
  destruct (n / base =? 0); [reflexivity |].
  rewrite IH. rewrite (IH _ (String _ "")). rewrite append_assoc. reflexivity.
Qed.

Lemma to_digits_aux_value (base : Z) (fuel : nat) :
  2 <= base <= 16 ->
  forall n acc, 0 <= n < 2 ^ Z.of_nat fuel ->
    digits_value base 0 (to_digits_aux base fuel n acc) = digits_value base n acc.
Proof.
  intros Hb. induction fuel as [| fuel IH]; intros n acc Hn.
  - simpl in *. replace n with 0 by lia. reflexivity.
  - simpl to_digits_aux.
    assert (Hm : 0 <= n mod base < base) by (apply Z.mod_pos_bound; lia).
    pose proof (Z.div_mod n base ltac:(lia)) as Hdm.
    destruct (Z.eqb_spec (n / base) 0) as [Hz | Hz].
    + simpl. rewrite (proj2 (digit_char_ok base _ ltac:(lia) Hm)).
      f_equal. rewrite Hz in Hdm. lia.
    + rewrite IH.
      * simpl. rewrite (proj2 (digit_char_ok base _ ltac:(lia) Hm)).
        f_equal. lia.
      * rewrite Nat2Z.inj_succ, Z.pow_succ_r in Hn by lia.
        split; [apply Z.div_pos; lia |].
        apply Z.div_lt_upper_bound; [lia |]. nia.
Qed.

Lemma to_digits_aux_digits (base : Z) (fuel : nat) :
  2 <= base <= 16 ->
  forall n acc,
    forall_chars (is_digit_of base) acc = true ->
    forall_chars (is_digit_of base) (to_digits_aux base fuel n acc) = true.
Proof.
  intros Hb. induction fuel as [| fuel IH]; intros n acc Hacc; simpl; [exact Hacc |].
  assert (Hm : 0 <= n mod base < base) by (apply Z.mod_pos_bound; lia).
  assert (Hacc' : forall_chars (is_digit_of base) (String (digit_char (n mod base)) acc) = true).
  { simpl. rewrite (proj1 (digit_char_ok base _ ltac:(lia) Hm)). exact Hacc. }
  destruct (n / base =? 0); [exact Hacc' | apply IH; exact Hacc'].
Qed.

Lemma to_digits_aux_length (base : Z) (fuel : nat) :
  2 <= base ->
  forall (k : nat) n acc, 0 <= n < base ^ Z.of_nat (S k) ->
    (String.length (to_digits_aux base fuel n acc) <= S k + String.length acc)%nat.
Proof.
  intros Hb. induction fuel as [| fuel IH]; intros k n acc Hn; simpl to_digits_aux.
  - lia.
  - destruct (Z.eqb_spec (n / base) 0) as [Hz | Hz]; [simpl; lia |].
    destruct k as [| k].
    + exfalso. apply Hz. apply Z.div_small. simpl in Hn. lia.
    + specialize (IH k (n / base) (String (digit_char (n mod base)) acc)).
      simpl String.length in IH.
      assert (0 <= n / base < base ^ Z.of_nat (S k)).
      { split; [apply Z.div_pos; lia |].
        apply Z.div_lt_upper_bound; [lia |].
        rewrite (Nat2Z.inj_succ (S k)), Z.pow_succ_r in Hn by lia. lia. }
      specialize (IH H). lia.
Qed.

Lemma to_digits_fuel (n : Z) : 0 <= n -> n < 2 ^ Z.of_nat (S (Z.to_nat (Z.log2 n))).
Proof.
  intros Hn. rewrite Nat2Z.inj_succ, Z2Nat.id by apply Z.log2_nonneg.
  destruct (Z.eq_dec n 0) as [-> | Hz]; [reflexivity |].
  apply Z.log2_spec. lia.
Qed.

Lemma to_digits_value (base n : Z) (r : string) :
  2 <= base <= 16 -> 0 <= n ->
  digits_value base 0 (to_digits base n ++ r) = digits_value base n r.
Proof.
  intros Hb Hn. unfold to_digits. rewrite <- to_digits_aux_app.
  apply to_digits_aux_value; [exact Hb |]. split; [exact Hn | now apply to_digits_fuel].
Qed.

Lemma to_digits_digits (base n : Z) :
  2 <= base <= 16 -> forall_chars (is_digit_of base) (to_digits base n) = true.
Proof. intros Hb. unfold to_digits. now apply to_digits_aux_digits. Qed.

Lemma to_digits_length (base n : Z) (k : nat) :
  2 <= base -> 0 <= n < base ^ Z.of_nat (S k) ->
  (String.length (to_digits base n) <= S k)%nat.
Proof.
  intros Hb Hn. unfold to_digits.
  pose proof (to_digits_aux_length base (S (Z.to_nat (Z.log2 n))) Hb k n "" Hn) as H.
  change (String.length "") with O in H. lia.
Qed.

Lemma to_digits_nonempty (base n : Z) : to_digits base n <> "".
Proof.
  unfold to_digits. simpl. destruct (n / base =? 0); [discriminate |].
  rewrite to_digits_aux_app. destruct (to_digits_aux _ _ _ ""); discriminate.
Qed.

Lemma digits_value_zeros (base : Z) (k : nat) (s : string) :
  digits_value base 0 (replicate k "0" ++ s) = digits_value base 0 s.
Proof. induction k as [| k IH]; simpl; [reflexivity | exact IH]. Qed.

Lemma is_digit_10 (c : ascii) : is_digit_of 10 c = is_digit c.
Proof. ascii_cases c; reflexivity. Qed.

Lemma is_digit_not_space (c : ascii) : is_digit c = true -> py_isspace c = false.
Proof. ascii_cases c; try discriminate; reflexivity. Qed.

Lemma is_digit_not_sign (c : ascii) :
  is_digit c = true ->
  Ascii.eqb c "_" = false /\ Ascii.eqb c "-" = false /\ Ascii.eqb c "+" = false.
Proof. ascii_cases c; try discriminate; repeat split; reflexivity. Qed.

Lemma lstrip_digits (s : string) :
  forall_chars is_digit s = true -> lstrip py_isspace s = s.
Proof.
  destruct s as [| c s]; simpl; [reflexivity |].
  intros H. apply andb_prop in H. destruct H as [Hc _].
  now rewrite (is_digit_not_space c Hc).
Qed.

Lemma rstrip_digits (s : string) :
  forall_chars is_digit s = true -> rstrip py_isspace s = s.
Proof.
  induction s as [| c s IH]; simpl; [reflexivity |].
  intros H. apply andb_prop in H. destruct H as [Hc Hs].
  rewrite (IH Hs). destruct s; [now rewrite (is_digit_not_space c Hc) | reflexivity].
Qed.

Lemma int_unsigned_10 (s : string) : int_unsigned 10 s = int_digits 10 0 true s.
Proof.
  destruct s as [| c s]; [reflexivity |].
  destruct s as [| p s]; [ascii_cases c; reflexivity |].
  ascii_cases c; reflexivity.
Qed.

Lemma int_digits_all (base : Z) (s : string) :
  forall acc need,
    forall_chars (is_digit_of base) s = true ->
    forall_chars (fun c => negb (Ascii.eqb c "_")) s = true ->
    (s <> "" \/ need = false) ->
    int_digits base acc need s = Some (digits_value base acc s).
Proof.
  induction s as [| c s IH]; intros acc need Hd Hu Hn; simpl in *.
  - destruct Hn as [Hn | ->]; [congruence | reflexivity].
  - apply andb_prop in Hd. destruct Hd as [Hc Hs].
    apply andb_prop in Hu. destruct Hu as [Hcu Hsu].
    apply negb_true_iff in Hcu. rewrite Hcu, Hc.
    apply IH; auto.
Qed.

(** [int] of a non-empty string of decimal digits is its value. *)
Lemma py_int_digits (s : string) :
  forall_chars is_digit s = true -> s <> "" ->
  py_int s = Some (digits_value 10 0 s).
Proof.
  intros Hd Hne. unfold py_int, py_int_base.
  rewrite (lstrip_digits s Hd), (rstrip_digits s Hd).
  assert (H10 : forall_chars (is_digit_of 10) s = true).
  { apply (forall_chars_impl is_digit); [| exact Hd]. intros c. now rewrite is_digit_10. }
  assert (Hus : forall_chars (fun c => negb (Ascii.eqb c "_")) s = true).
  { apply (forall_chars_impl is_digit); [| exact Hd].
    intros c Hc. now rewrite (proj1 (is_digit_not_sign c Hc)). }
  assert (Hgo : int_unsigned 10 s = Some (digits_value 10 0 s)).
  { rewrite int_unsigned_10. apply int_digits_all; auto. }
  destruct s as [| c s]; [congruence |].
  simpl in Hd. apply andb_prop in Hd. destruct Hd as [Hc _].
  destruct (is_digit_not_sign c Hc) as (_ & Hm & Hp).
  ascii_cases c; try discriminate; exact Hgo.
Qed.

(** ** Address parsing *)

Lemma parse_digits_app (base : Z) (ds : string) :
  forall acc r,
    forall_chars (is_digit_of base) ds = true ->
    (forall a, parse_digits base a r = (a, r)) ->
    parse_digits base acc (ds ++ r) = (digits_value base acc ds, r).
Proof.
  induction ds as [| c ds IH]; intros acc r Hd Hr; simpl in *.
  - apply Hr.
  - apply andb_prop in Hd. destruct Hd as [Hc Hs]. rewrite Hc. now apply IH.
Qed.

Lemma parse_digits_nonneg (base : Z) (s : string) :
  0 <= base -> forall acc, 0 <= acc -> 0 <= fst (parse_digits base acc s).
Proof.
  intros Hb. induction s as [| c s IH]; intros acc Hacc; simpl; [exact Hacc |].
  destruct (is_digit_of base c); [| exact Hacc].
  apply IH. pose proof (digit_val_nonneg c). nia.
Qed.

(** A decimal numeral that does not start with a zero is read in base 10. *)
Lemma strtoul0_decimal (c : ascii) (s r : string) :
  is_digit c = true -> c <> "0"%char -> forall_chars is_digit s = true ->
  (forall a, parse_digits 10 a r = (a, r)) ->
  strtoul0 (String c s ++ r) = (digits_value 10 0 (String c s), r).
Proof.
  intros Hc Hz Hs Hr.
  assert (H10 : forall_chars (is_digit_of 10) (String c s) = true).
  { simpl. rewrite is_digit_10, Hc. simpl.
    apply (forall_chars_impl is_digit); [| exact Hs]. intros a. now rewrite is_digit_10. }
  rewrite <- (parse_digits_app 10 (String c s) 0 r H10 Hr).
  simpl append. clear H10 Hs Hr.
  ascii_cases c; try discriminate; try reflexivity. congruence.
Qed.

Lemma byte_numeral (b : Z) :
  0 <= b < 256 ->
  exists c s, py_str b = String c s /\ is_digit c = true
              /\ forall_chars is_digit s = true
              /\ digits_value 10 0 (String c s) = b
              /\ (c <> "0"%char \/ (s = "" /\ b = 0)).
Proof.
  intros Hb.
  pose proof (forall_byte
    (fun b => match py_str b with
              | String c s =>
                  is_digit c && forall_chars is_digit s
                  && (digits_value 10 0 (String c s) =? b)
                  && (negb (Ascii.eqb c "0") || (String.eqb s "" && (b =? 0)))
              | "" => false
              end) ltac:(vm_compute; reflexivity) b Hb) as H.
  cbv beta in H. destruct (py_str b) as [| c s]; [discriminate |].
  exists c, s.
  apply andb_prop in H; destruct H as [H Hx].
  do 2 (apply andb_prop in H; destruct H as [H ?]).
  split; [reflexivity |]. split; [assumption |]. split; [assumption |].
  split; [now apply Z.eqb_eq |].
  apply orb_prop in Hx. destruct Hx as [Hx | Hx].
  - left. apply negb_true_iff in Hx. now apply Ascii.eqb_neq.
  - right. apply andb_prop in Hx. destruct Hx as [Hs Hz].
    split; [now apply String.eqb_eq | now apply Z.eqb_eq].
Qed.

Lemma byte_text (b : Z) :
  0 <= b < 256 ->
  contains "/" (py_str b) = false /\ contains "." (py_str b) = false
  /\ contains nul (py_str b) = false
  /\ contains "." (rjust 3 " " (py_str b)) = false
  /\ py_int (rjust 3 " " (py_str b)) = Some b.
Proof.
  intros Hb.
  pose proof (forall_byte
    (fun b => negb (contains "/" (py_str b)) && negb (contains "." (py_str b))
              && negb (contains nul (py_str b))
              && negb (contains "." (rjust 3 " " (py_str b)))
              && match py_int (rjust 3 " " (py_str b)) with
                 | Some v => v =? b
                 | None => false
                 end) ltac:(vm_compute; reflexivity) b Hb) as H.
  cbv beta in H. do 4 (apply andb_prop in H; destruct H as [H ?]).
  repeat match goal with Hx : negb _ = true |- _ => apply negb_true_iff in Hx end.
  repeat split; try assumption.
  destruct (py_int (rjust 3 " " (py_str b))) as [v |]; [| discriminate].
  f_equal. now apply Z.eqb_eq.
Qed.

Lemma be_bytes_byte (d : Z) : 0 <= d < 256 -> be_bytes d = [0; 0; 0; d].
Proof.
  intros Hd.
  pose proof (forall_byte
    (fun d => (Z.land (Z.shiftr d 24) 255 =? 0) && (Z.land (Z.shiftr d 16) 255 =? 0)
              && (Z.land (Z.shiftr d 8) 255 =? 0) && (Z.land d 255 =? d))
    ltac:(vm_compute; reflexivity) d Hd) as H.
  cbv beta in H. do 3 (apply andb_prop in H; destruct H as [H ?]).
  repeat match goal with Hx : (_ =? _) = true |- _ => apply Z.eqb_eq in Hx end.
  unfold be_bytes. congruence.
Qed.

Lemma strtoul0_byte (b : Z) (r : string) :
  0 <= b < 256 -> (r = "" \/ exists r', r = String "." r') ->
  strtoul0 (py_str b ++ r) = (b, r)
  /\ exists c t, py_str b ++ r = String c t /\ is_digit c = true.
Proof.
  intros Hb Hr.
  destruct (byte_numeral b Hb) as (c & s & Hstr & Hc & Hs & Hv & Hz).
  rewrite Hstr. split; [| exists c, (s ++ r); split; [reflexivity | exact Hc]].
  assert (Hstop : forall a, parse_digits 10 a r = (a, r)).
  { intros a. destruct Hr as [-> | [r' ->]]; reflexivity. }
  destruct Hz as [Hz | [-> ->]].
  - rewrite (strtoul0_decimal c s r Hc Hz Hs Hstop). now rewrite Hv.
  - assert (c = "0"%char) as ->.
    { simpl in Hv. clear - Hc Hv. ascii_cases c; try discriminate; reflexivity. }
    destruct Hr as [-> | [r' ->]]; reflexivity.
Qed.

Lemma aton_parts_dot (slots : nat) (b : Z) (r : string) (parts : list Z) :
  0 <= b < 256 ->
  aton_parts (S slots) (py_str b ++ String "." r) parts
  = aton_parts slots r (parts ++ [b]).
Proof.
  intros Hb.
  destruct (strtoul0_byte b (String "." r) Hb ltac:(right; eauto))
    as (Hs & c & t & Heq & Hc).
  rewrite Heq in *. cbn [aton_parts]. rewrite Hc, Hs. cbn [negb].
  destruct (Z.ltb_spec 4294967295 b); [lia |].
  destruct (Z.ltb_spec 255 b); [lia | reflexivity].
Qed.

Lemma aton_parts_last (slots : nat) (b : Z) (parts : list Z) :
  0 <= b < 256 ->
  aton_parts slots (py_str b) parts = Some (parts, b, "").
Proof.
  intros Hb.
  destruct (strtoul0_byte b "" Hb ltac:(left; reflexivity)) as (Hs & c & t & Heq & Hc).
  rewrite append_nil_r in *. rewrite Heq in *.
  destruct slots; cbn [aton_parts]; rewrite Hc, Hs; cbn [negb];
    destruct (Z.ltb_spec 4294967295 b); try lia; reflexivity.
Qed.

(** [inet_aton] reads back what [inet_ntoa] writes. *)
Lemma inet_aton_ntoa (a b c d : Z) :
  0 <= a < 256 -> 0 <= b < 256 -> 0 <= c < 256 -> 0 <= d < 256 ->
  inet_aton (join "." (map py_str [a; b; c; d])) = Some [a; b; c; d].
Proof.
  intros Ha Hb Hc Hd. unfold inet_aton. simpl join.
  rewrite (aton_parts_dot 2 a _ [] Ha), (aton_parts_dot 1 b _ _ Hb),
    (aton_parts_dot 0 c _ _ Hc), (aton_parts_last 0 d _ Hd).
  rewrite (be_bytes_byte d Hd). cbn -[Z.ltb Z.lor].
  destruct (Z.ltb_spec 255 d); [lia |].
  now rewrite !Z.lor_0_r.
Qed.

(** ** Bytes *)

Lemma byte_pair (P : Z -> Z -> bool) :
  forallb (fun a => forallb (P a) byte_range) byte_range = true ->
  forall a b, 0 <= a < 256 -> 0 <= b < 256 -> P a b = true.
Proof.
  intros H a b Ha Hb.
  pose proof (forall_byte _ H a Ha) as Hrow. cbv beta in Hrow.
  exact (forall_byte _ Hrow b Hb).
Qed.

Lemma lor_byte (a b : Z) : 0 <= a < 256 -> 0 <= b < 256 -> 0 <= Z.lor a b < 256.
Proof.
  intros Ha Hb.
  pose proof (byte_pair (fun a b => (0 <=? Z.lor a b) && (Z.lor a b <? 256))
                        ltac:(vm_compute; reflexivity) a b Ha Hb) as H.
  cbv beta in H. apply andb_prop in H. destruct H as [H1 H2].
  apply Z.leb_le in H1. apply Z.ltb_lt in H2. lia.
Qed.

Lemma land_byte (a b : Z) : 0 <= a < 256 -> 0 <= b < 256 -> 0 <= Z.land a b < 256.
Proof.
  intros Ha Hb.
  pose proof (byte_pair (fun a b => (0 <=? Z.land a b) && (Z.land a b <? 256))
                        ltac:(vm_compute; reflexivity) a b Ha Hb) as H.
  cbv beta in H. apply andb_prop in H. destruct H as [H1 H2].
  apply Z.leb_le in H1. apply Z.ltb_lt in H2. lia.
Qed.

Lemma land_255 (x : Z) : 0 <= Z.land x 255 < 256.
Proof.
  change 255 with (Z.ones 8). rewrite Z.land_ones by lia.
  change (2 ^ 8) with 256. apply Z.mod_pos_bound. lia.
Qed.

Lemma bytes_ok_4 (l : list Z) :
  bytes_ok l ->
  exists a b c d, l = [a; b; c; d]
                  /\ 0 <= a < 256 /\ 0 <= b < 256 /\ 0 <= c < 256 /\ 0 <= d < 256.
Proof.
  intros [Hlen Hall].
  destruct l as [| a [| b [| c [| d [| e l]]]]]; try discriminate.
  exists a, b, c, d. split; [reflexivity |].
  inversion Hall as [| ? ? Ha Hall1]; subst.
  inversion Hall1 as [| ? ? Hb Hall2]; subst.
  inversion Hall2 as [| ? ? Hc Hall3]; subst.
  inversion Hall3 as [| ? ? Hd _]; subst. auto.
Qed.

Lemma bytes_ok_intro (a b c d : Z) :
  0 <= a < 256 -> 0 <= b < 256 -> 0 <= c < 256 -> 0 <= d < 256 ->
  bytes_ok [a; b; c; d].
Proof.
  intros Ha Hb Hc Hd. split; [reflexivity |].
  apply Forall_cons; [exact Ha |]. apply Forall_cons; [exact Hb |].
  apply Forall_cons; [exact Hc |]. apply Forall_cons; [exact Hd |].
  apply Forall_nil.
Qed.

Lemma be_bytes_ok (v : Z) : bytes_ok (be_bytes v).
Proof. unfold be_bytes. apply bytes_ok_intro; apply land_255. Qed.

Lemma strtoul0_nonneg (cp : string) : 0 <= fst (strtoul0 cp).
Proof.
  unfold strtoul0.
  repeat match goal with
         | |- context [match ?x with _ => _ end] => destruct x
         end; apply parse_digits_nonneg; lia.
Qed.

Lemma aton_parts_inv (slots : nat) :
  forall cp parts ps val rest,
    aton_parts slots cp parts = Some (ps, val, rest) ->
    Forall (fun b => 0 <= b < 256) parts ->
    Forall (fun b => 0 <= b < 256) ps
    /\ (List.length ps <= List.length parts + slots)%nat /\ 0 <= val.
Proof.
  induction slots as [| slots IH]; intros cp parts ps val rest H Hparts;
    destruct cp as [| c t]; cbn [aton_parts] in H; try discriminate;
    destruct (is_digit c); cbn [negb] in H; try discriminate;
    pose proof (strtoul0_nonneg (String c t)) as Hnn;
    destruct (strtoul0 (String c t)) as [v r]; cbn [fst] in Hnn;
    destruct (4294967295 <? v); try discriminate.
  - destruct r as [| c' r']; [injection H as <- <- <-; repeat split; auto; lia |].
    ascii_cases c'; try discriminate;
      injection H as <- <- <-; repeat split; auto; lia.
  - destruct r as [| c' r']; [injection H as <- <- <-; repeat split; auto; lia |].
    destruct (Ascii.eqb_spec c' ".") as [-> | Hne].
    + destruct (Z.ltb_spec 255 v); [discriminate |].
      apply IH in H.
      * destruct H as (H1 & H2 & H3). rewrite length_app in H2. simpl in H2.
        repeat split; auto; lia.
      * apply Forall_app. split; [exact Hparts | repeat constructor; lia].
    + ascii_cases c'; try congruence;
        injection H as <- <- <-; repeat split; auto; lia.
Qed.

(** What [inet_aton] returns is a [bytes] object of length four. *)
Lemma inet_aton_bytes_ok (cp : string) (rw : list Z) :
  inet_aton cp = Some rw -> bytes_ok rw.
Proof.
  unfold inet_aton. intros H.
  destruct (aton_parts 3 cp []) as [[[ps val] rest] |] eqn:E; [| discriminate].
  apply aton_parts_inv in E; [| constructor].
  destruct E as (Hps & Hlen & Hval). simpl in Hlen.
  destruct (negb _); [discriminate |].
  destruct (_ <? val); [discriminate |].
  injection H as <-. unfold be_bytes.
  destruct ps as [| p0 [| p1 [| p2 [| p3 ps]]]]; simpl in Hlen; try lia;
    repeat match goal with
           | Hf : Forall _ (_ :: _) |- _ => inversion Hf; subst; clear Hf
           end;
    cbn [app repeat List.length Nat.sub map2];
    apply bytes_ok_intro; apply lor_byte; try apply land_255; auto; lia.
Qed.

Lemma socket_inet_aton_ok (s : string) (rw : list Z) :
  socket_inet_aton s = Ret rw -> bytes_ok rw.
Proof.
  unfold socket_inet_aton. destruct (contains nul s); [discriminate |].
  destruct (inet_aton s) as [r |] eqn:E; [| discriminate].
  intros H. injection H as <-. now apply inet_aton_bytes_ok in E.
Qed.

(** ** The renderings *)

Lemma format_int_digits (w : nat) (base n : Z) :
  2 <= base <= 16 -> 0 <= n ->
  forall_chars (is_digit_of base) (format_int w base n) = true
  /\ digits_value base 0 (format_int w base n) = n
  /\ format_int w base n <> "".
Proof.
  intros Hb Hn. unfold format_int. destruct (Z.ltb_spec n 0); [lia |].
  unfold rjust. split; [| split].
  - rewrite forall_chars_append, to_digits_digits by exact Hb.
    rewrite forall_chars_replicate; [reflexivity |].
    unfold is_digit_of. simpl. apply Z.ltb_lt. lia.
  - rewrite digits_value_zeros.
    rewrite <- (append_nil_r (to_digits base n)).
    now rewrite to_digits_value.
  - pose proof (to_digits_nonempty base n) as Hne.
    destruct (replicate _ _); simpl; [exact Hne | discriminate].
Qed.

Lemma format_int_length (w : nat) (base n : Z) :
  2 <= base -> 0 <= n < base ^ Z.of_nat w -> (0 < w)%nat ->
  String.length (format_int w base n) = w.
Proof.
  intros Hb Hn Hw. unfold format_int. destruct (Z.ltb_spec n 0); [lia |].
  unfold rjust. rewrite length_append, length_replicate.
  destruct w as [| k]; [lia |].
  pose proof (to_digits_length base n k Hb Hn). lia.
Qed.

Lemma py_int_format (w : nat) (n : Z) :
  0 <= n -> py_int (format_int w 10 n) = Some n.
Proof.
  intros Hn.
  destruct (format_int_digits w 10 n ltac:(lia) Hn) as (Hd & Hv & Hne).
  rewrite py_int_digits; [now rewrite Hv | | exact Hne].
  apply (forall_chars_impl (is_digit_of 10)); [| exact Hd].
  intros c. now rewrite is_digit_10.
Qed.

Lemma be_value_bounds (a b c d : Z) :
  0 <= a < 256 -> 0 <= b < 256 -> 0 <= c < 256 -> 0 <= d < 256 ->
  0 <= be_value [a; b; c; d] < 2 ^ 32.
Proof. intros. unfold be_value. simpl nth. lia. Qed.

(** ** The constructor *)

Section ConstructorFacts.

Variable ctor : string -> flags -> outcome Net.

(** Once the base address is parsed, the four renderings never fail and
    are those of [rendering]. *)
Lemma populate_spec (net : string) (fl : flags) (base : string)
      (m : option Net) (rw : list Z) :
  socket_inet_aton base = Ret rw ->
  populate ctor net fl base m =
    match m with
    | Some msk =>
        r <- Net_and_with ctor (mkNet net m None rw (rendering rw fl)) msk ;;
        Ret (mkNet net m (Some r) rw (rendering rw fl))
    | None => Ret (mkNet net m None rw (rendering rw fl))
    end.
Proof.
  intros Hraw. pose proof (socket_inet_aton_ok base rw Hraw) as Hok.
  apply bytes_ok_4 in Hok.
  destruct Hok as (a & b & c & d & -> & Ha & Hb & Hc & Hd).
  unfold populate. rewrite Hraw, bind_Ret.
  unfold socket_inet_ntoa. cbn [List.length Nat.eqb]. rewrite bind_Ret.
  destruct (byte_text a Ha) as (_ & Ha1 & _ & Ha2 & Ha3).
  destruct (byte_text b Hb) as (_ & Hb1 & _ & Hb2 & Hb3).
  destruct (byte_text c Hc) as (_ & Hc1 & _ & Hc2 & Hc3).
  destruct (byte_text d Hd) as (_ & Hd1 & _ & Hd2 & Hd3).
  cbn [map]. rewrite (split_join4 "." _ _ _ _ Ha1 Hb1 Hc1 Hd1).
  cbn [map]. rewrite (split_join4 "." _ _ _ _ Ha2 Hb2 Hc2 Hd2).
  cbn [seq mapM unpack_B nth_error bind fold_left].
  pose proof (be_value_bounds a b c d Ha Hb Hc Hd) as Hv.
  replace (0 + 256 ^ (3 - Z.of_nat 0) * a + 256 ^ (3 - Z.of_nat 1) * b
           + 256 ^ (3 - Z.of_nat 2) * c + 256 ^ (3 - Z.of_nat 3) * d)
    with (be_value [a; b; c; d]) by (unfold be_value; cbn [nth]; reflexivity).
  rewrite (py_int_format 10 (be_value [a; b; c; d])) by lia.
  rewrite bind_Ret. cbn [mapM]. rewrite Ha3, Hb3, Hc3, Hd3. rewrite !bind_Ret.
  reflexivity.
Qed.

Lemma dispatch_noslash (net : string) (fl : flags) :
  contains "/" net = false ->
  dispatch ctor net fl =
    (r <- dispatch (fun _ _ => OutOfFuel) net fl ;; Ret (fst r, None)).
Proof.
  intros H. unfold dispatch. rewrite H.
  destruct (negb (contains "." net)); [| reflexivity].
  destruct (_ && negb (exists_char (fun c => negb (is_digit c)) net)).
  - destruct (py_int net) as [n |]; [| reflexivity].
    destruct (n <=? 32); [| reflexivity].
    destruct (bits2int (PStr net)); reflexivity.
  - destruct (_ && negb (exists_char (fun c => negb (is_hex c)) net)); reflexivity.
Qed.

(** The text [inet_ntoa] writes for four bytes is taken as a dotted
    address. *)
Lemma dispatch_text (a b c d : Z) (fl : flags) :
  0 <= a < 256 -> 0 <= b < 256 -> 0 <= c < 256 -> 0 <= d < 256 ->
  dispatch ctor (join "." (map py_str [a; b; c; d])) fl
  = Ret (join "." (map py_str [a; b; c; d]), None)
  /\ contains "/" (join "." (map py_str [a; b; c; d])) = false
  /\ socket_inet_aton (join "." (map py_str [a; b; c; d])) = Ret [a; b; c; d].
Proof.
  intros Ha Hb Hc Hd.
  destruct (byte_text a Ha) as (Ha0 & _ & Ha1 & _).
  destruct (byte_text b Hb) as (Hb0 & _ & Hb1 & _).
  destruct (byte_text c Hc) as (Hc0 & _ & Hc1 & _).
  destruct (byte_text d Hd) as (Hd0 & _ & Hd1 & _).
  assert (Hslash : contains "/" (join "." (map py_str [a; b; c; d])) = false).
  { cbn [map join]. rewrite !contains_append, Ha0, Hb0, Hc0, Hd0. reflexivity. }
  assert (Hdot : contains "." (join "." (map py_str [a; b; c; d])) = true).
  { cbn [map join]. rewrite !contains_append. cbn. apply orb_true_r. }
  assert (Hnul : contains nul (join "." (map py_str [a; b; c; d])) = false).
  { cbn [map join]. rewrite !contains_append, Ha1, Hb1, Hc1, Hd1. reflexivity. }
  split; [| split].
  - unfold dispatch. now rewrite Hslash, Hdot.
  - exact Hslash.
  - unfold socket_inet_aton. now rewrite Hnul, inet_aton_ntoa.
Qed.

End ConstructorFacts.

Lemma Net_init_S (fuel : nat) (net : string) (fl : flags) :
  Net_init (S fuel) net fl
  = ('(base_address, m) <- dispatch (Net_init fuel) net fl ;;
     populate (Net_init fuel) net fl base_address m).
Proof. reflexivity. Qed.

(** A string without a slash is constructed without any recursive call. *)
Lemma Net_init_noslash (fuel : nat) (net : string) (fl : flags) :
  contains "/" net = false -> Net_init (S fuel) net fl = Net_init 1 net fl.
Proof.
  intros H. rewrite !Net_init_S.
  rewrite (dispatch_noslash (Net_init fuel) net fl H).
  rewrite (dispatch_noslash (Net_init 0) net fl H).
  destruct (dispatch _ net fl) as [[b m] | cls msg |]; reflexivity.
Qed.

Lemma Net_init_noslash_shape (fuel : nat) (net : string) (fl : flags) (v : Net) :
  contains "/" net = false -> Net_init (S fuel) net fl = Ret v ->
  exists base rw,
    dispatch (fun _ _ => OutOfFuel) net fl = Ret (base, None)
    /\ socket_inet_aton base = Ret rw
    /\ v = mkNet net None None rw (rendering rw fl).
Proof.
  intros H Hv. rewrite Net_init_S in Hv.
  rewrite (dispatch_noslash (Net_init fuel) net fl H) in Hv.
  destruct (dispatch _ net fl) as [[b m] | cls msg |] eqn:E; try discriminate.
  cbn in Hv.
  destruct (socket_inet_aton b) as [rw | cls msg |] eqn:Hraw;
    try (unfold populate in Hv; rewrite Hraw in Hv; discriminate).
  rewrite (populate_spec _ net fl b None rw Hraw) in Hv. injection Hv as <-.
  exists b, rw. repeat split; try assumption.
  rewrite (dispatch_noslash (fun _ _ => OutOfFuel) net fl H) in E.
  destruct (dispatch _ net fl) as [[b' m'] | |]; try discriminate.
  cbn in E. congruence.
Qed.

Lemma Net_init_text (fuel : nat) (a b c d : Z) (fl : flags) :
  0 <= a < 256 -> 0 <= b < 256 -> 0 <= c < 256 -> 0 <= d < 256 ->
  Net_init (S fuel) (join "." (map py_str [a; b; c; d])) fl
  = Ret (mkNet (join "." (map py_str [a; b; c; d])) None None [a; b; c; d]
               (rendering [a; b; c; d] fl)).
Proof.
  intros Ha Hb Hc Hd.
  destruct (dispatch_text (Net_init fuel) a b c d fl Ha Hb Hc Hd) as (Hdis & _ & Hraw).
  rewrite Net_init_S, Hdis, bind_Ret.
  now rewrite (populate_spec _ _ fl _ None _ Hraw).
Qed.

Lemma bytearray_set_ok (l : list Z) (o : nat) (v : Z) :
  (o < List.length l)%nat /\ 0 <= v < 256 ->
  bytearray_set l o v = Ret (firstn o l ++ v :: skipn (S o) l)%list.
Proof.
  intros [Ho Hv]. unfold bytearray_set.
  destruct (Nat.ltb_spec o (List.length l)); [| lia].
  destruct (Z.leb_spec 0 v); [| lia]. destruct (Z.ltb_spec v 256); [| lia].
  reflexivity.
Qed.

Lemma shows_rendering (net : string) (m r : option Net) (rw : list Z) (fl : flags) :
  shows (mkNet net m r rw (rendering rw fl)) = fl.
Proof. destruct fl; reflexivity. Qed.

(** The overloaded [&] on two values with well-formed bytes. *)
Lemma Net_and_spec (fuel : nat) (A B : Net) :
  bytes_ok (raw A) -> bytes_ok (raw B) ->
  Net_and (S fuel) A B
  = Ret (mkNet (join "." (map py_str (map2 Z.land (raw A) (raw B)))) None None
               (map2 Z.land (raw A) (raw B))
               (rendering (map2 Z.land (raw A) (raw B)) (shows A))).
Proof.
  intros HA HB.
  apply bytes_ok_4 in HA. destruct HA as (a0 & a1 & a2 & a3 & EA & ? & ? & ? & ?).
  apply bytes_ok_4 in HB. destruct HB as (b0 & b1 & b2 & b3 & EB & ? & ? & ? & ?).
  unfold Net_and, Net_and_with.
  change (socket_inet_aton "0.0.0.0") with (@Ret (list Z) [0; 0; 0; 0]).
  cbn [bind seq and_loop]. rewrite EA, EB. cbn [unpack_B nth_error bind].
  rewrite (bytearray_set_ok _ 0 (Z.land a0 b0)) by (cbn; auto using land_byte with arith).
  cbn [bind firstn skipn app].
  rewrite (bytearray_set_ok _ 1 (Z.land a1 b1)) by (cbn; auto using land_byte with arith).
  cbn [bind firstn skipn app].
  rewrite (bytearray_set_ok _ 2 (Z.land a2 b2)) by (cbn; auto using land_byte with arith).
  cbn [bind firstn skipn app].
  rewrite (bytearray_set_ok _ 3 (Z.land a3 b3)) by (cbn; auto using land_byte with arith).
  cbn [bind firstn skipn app socket_inet_ntoa List.length Nat.eqb map2].
  apply Net_init_text; apply land_byte; assumption.
Qed.

(** A string with one slash: the mask is constructed from what follows the
    slash, and what precedes it goes to [socket.inet_aton] as it is. *)
Lemma Net_init_slash (fuel : nat) (net : string) (fl : flags) :
  count "/" net = 1%nat ->
  exists base maskSpec,
    split "/" net = [base; maskSpec] /\ net = base ++ "/" ++ maskSpec
    /\ contains "/" base = false /\ contains "/" maskSpec = false
    /\ Net_init (S (S fuel)) net fl
       = (msk <- Net_init (S fuel) maskSpec fl ;;
          rw <- socket_inet_aton base ;;
          r <- Net_and (S fuel) (mkNet net (Some msk) None rw (rendering rw fl)) msk ;;
          Ret (mkNet net (Some msk) (Some r) rw (rendering rw fl))).
Proof.
  intros Hc.
  destruct (split_count_one "/" net Hc) as (b & m & Hs & Hnet & Hb & Hm).
  exists b, m. repeat split; try assumption.
  rewrite Net_init_S. unfold dispatch at 1.
  rewrite contains_count, Hc, Hs. cbn [Nat.eqb negb Nat.ltb Nat.leb].
  destruct (Net_init (S fuel) m fl) as [msk | cls msg |]; try reflexivity.
  rewrite !bind_Ret.
  destruct (socket_inet_aton b) as [rw | cls msg |] eqn:Hraw;
    try (unfold populate; rewrite Hraw; reflexivity).
  rewrite (populate_spec _ net fl b (Some msk) rw Hraw). reflexivity.
Qed.

(** Every constructed [Net] is of one of two shapes. *)
Lemma Net_init_shape (fuel : nat) (net : string) (fl : flags) (v : Net) :
  Net_init fuel net fl = Ret v ->
  exists rw, bytes_ok rw /\
    ((contains "/" net = false /\ v = mkNet net None None rw (rendering rw fl))
     \/ (count "/" net = 1%nat /\
         exists maskSpec rwm,
           bytes_ok rwm /\
           v = mkNet net
                     (Some (mkNet maskSpec None None rwm (rendering rwm fl)))
                     (Some (mkNet (join "." (map py_str (map2 Z.land rw rwm)))
                                  None None (map2 Z.land rw rwm)
                                  (rendering (map2 Z.land rw rwm) fl)))
                     rw (rendering rw fl))).
Proof.
  intros Hv. destruct fuel as [| fuel]; [discriminate |].
  destruct (contains "/" net) eqn:Hslash.
  - destruct (count "/" net) as [| [| k]] eqn:Hc.
    + rewrite contains_count, Hc in Hslash. discriminate.
    + destruct fuel as [| fuel].
      { rewrite Net_init_S in Hv. unfold dispatch in Hv.
        rewrite Hslash, Hc in Hv. cbn [Nat.ltb Nat.leb] in Hv.
        destruct (split "/" net) as [| ? [| ? [| ? ?]]]; discriminate. }
      destruct (Net_init_slash fuel net fl Hc) as (b & m & _ & _ & _ & Hm & Heq).
      rewrite Heq in Hv. clear Heq.
      apply bind_inv in Hv. destruct Hv as (msk & Hmsk & Hv).
      apply bind_inv in Hv. destruct Hv as (rw & Hraw & Hv).
      apply bind_inv in Hv. destruct Hv as (r & Hr & Hv).
      injection Hv as <-.
      destruct (Net_init_noslash_shape fuel m fl msk Hm Hmsk)
        as (mb & rwm & _ & Hrwm & ->).
      pose proof (socket_inet_aton_ok _ _ Hraw) as Hok.
      pose proof (socket_inet_aton_ok _ _ Hrwm) as Hokm.
      rewrite Net_and_spec in Hr by assumption.
      rewrite shows_rendering in Hr. cbn [raw] in Hr. injection Hr as <-.
      exists rw. split; [exact Hok |]. right. split; [reflexivity |].
      exists m, rwm. split; [exact Hokm | reflexivity].
    + rewrite Net_init_S in Hv. unfold dispatch in Hv.
      rewrite Hslash, Hc in Hv. discriminate.
  - destruct (Net_init_noslash_shape fuel net fl v Hslash Hv) as (b & rw & _ & Hraw & ->).
    exists rw. split; [exact (socket_inet_aton_ok _ _ Hraw) |]. left. auto.
Qed.

Lemma Net_init_bytes_ok (fuel : nat) (net : string) (fl : flags) (v : Net) :
  Net_init fuel net fl = Ret v -> bytes_ok (raw v).
Proof.
  intros Hv. destruct (Net_init_shape fuel net fl v Hv) as (rw & Hok & [[_ ->] | [_ H]]).
  - exact Hok.
  - destruct H as (m & rwm & _ & ->). exact Hok.
Qed.

(** Two units of fuel are enough for every specification: the constructor
    terminates, and more fuel does not change what it returns. *)
Lemma Net_init_no_fuel_1 (net : string) (fl : flags) :
  contains "/" net = false -> Net_init 1 net fl <> OutOfFuel.
Proof.
  intros H. rewrite Net_init_S.
  destruct (dispatch (Net_init 0) net fl) as [[b m] | cls msg |] eqn:E;
    [| discriminate |].
  - rewrite (dispatch_noslash _ net fl H) in E.
    destruct (dispatch _ net fl) as [[b' m'] | |]; try discriminate.
    cbn in E. injection E as <- <-. rewrite bind_Ret.
    destruct (socket_inet_aton b') as [rw | cls msg |] eqn:Hraw.
    + rewrite (populate_spec _ net fl b' None rw Hraw). discriminate.
    + unfold populate. rewrite Hraw. discriminate.
    + unfold socket_inet_aton in Hraw. destruct (contains nul b'); [discriminate |].
      destruct (inet_aton b'); discriminate.
  - exfalso. unfold dispatch in E. rewrite H in E.
    destruct (negb (contains "." net)); [| discriminate].
    destruct (_ && negb (exists_char (fun c => negb (is_digit c)) net)).
    + destruct (py_int net) as [n |]; [| discriminate].
      destruct (n <=? 32); [| discriminate].
      unfold bits2int in E. destruct (py_int net) as [k |]; [| discriminate].
      destruct ((1 <=? k) && (k <=? 32)); [| discriminate].
      destruct (py_int_base 2 _); discriminate.
    + destruct (_ && negb (exists_char (fun c => negb (is_hex c)) net)); discriminate.
Qed.

Lemma Net_init_fuel (fuel : nat) (net : string) (fl : flags) :
  Net_init (S (S fuel)) net fl = Net_init 2 net fl
  /\ Net_init 2 net fl <> OutOfFuel.
Proof.
  destruct (count "/" net) as [| [| k]] eqn:Hc.
  - apply contains_false_count in Hc.
    rewrite (Net_init_noslash (S fuel) net fl Hc), (Net_init_noslash 1 net fl Hc).
    split; [reflexivity | now apply Net_init_no_fuel_1].
  - destruct (Net_init_slash fuel net fl Hc) as (b & m & Hs & _ & _ & Hm & Heq).
    destruct (Net_init_slash 0 net fl Hc) as (b' & m' & Hs' & _ & _ & _ & Heq').
    rewrite Hs in Hs'. injection Hs' as <- <-.
    rewrite Heq, Heq'. rewrite (Net_init_noslash fuel m fl Hm).
    pose proof (Net_init_no_fuel_1 m fl Hm) as Hnf.
    destruct (Net_init 1 m fl) as [msk | cls msg |] eqn:Hmsk;
      [| split; [reflexivity | discriminate] | congruence].
    rewrite !bind_Ret.
    destruct (socket_inet_aton b) as [rw | cls msg |] eqn:Hraw.
    + rewrite !bind_Ret.
      pose proof (socket_inet_aton_ok _ _ Hraw) as Hok.
      pose proof (Net_init_bytes_ok _ _ _ _ Hmsk) as Hokm.
      rewrite !Net_and_spec by assumption.
      split; [reflexivity | discriminate].
    + split; [reflexivity | discriminate].
    + unfold socket_inet_aton in Hraw. destruct (contains nul b); [discriminate |].
      destruct (inet_aton b); discriminate.
  - assert (H : forall f, Net_init (S f) net fl
                          = Raise ValueError
                              ("Invalid CIDR block (multiple " ++ dquote ++ "/" ++ dquote
                               ++ "es): " ++ net)).
    { intros f. rewrite Net_init_S. unfold dispatch.
      rewrite contains_count, Hc. reflexivity. }
    rewrite !H. split; [reflexivity | discriminate].
Qed.

(** ** Mask lengths *)

Lemma masklen_facts (n : Z) :
  1 <= n <= 32 ->
  py_int_base 2 (replicate (Z.to_nat n) "1" ++ replicate (Z.to_nat (32 - n)) "0")
  = Some (2 ^ 32 - 2 ^ (32 - n))
  /\ socket_inet_aton (py_str (2 ^ 32 - 2 ^ (32 - n)))
     = Ret (be_bytes (2 ^ 32 - 2 ^ (32 - n)))
  /\ be_value (be_bytes (2 ^ 32 - 2 ^ (32 - n))) = 2 ^ 32 - 2 ^ (32 - n)
  /\ forallb (fun i => Bool.eqb (Z.testbit (2 ^ 32 - 2 ^ (32 - n)) i) (32 - n <=? i))
             (map Z.of_nat (seq 0 32)) = true.
Proof.
  intros Hn.
  pose proof (forall_masklen
    (fun n =>
       let v := 2 ^ 32 - 2 ^ (32 - n) in
       match py_int_base 2 (replicate (Z.to_nat n) "1" ++ replicate (Z.to_nat (32 - n)) "0") with
       | Some x => x =? v
       | None => false
       end
       && match socket_inet_aton (py_str v) with
          | Ret l => forallb (fun p => fst p =? snd p) (combine l (be_bytes v))
                     && (List.length l =? 4)%nat
          | _ => false
          end
       && (be_value (be_bytes v) =? v)
       && forallb (fun i => Bool.eqb (Z.testbit v i) (32 - n <=? i))
                  (map Z.of_nat (seq 0 32)))
    ltac:(vm_compute; reflexivity) n Hn) as H.
  cbv beta zeta in H. do 3 (apply andb_prop in H; destruct H as [H ?]).
  split; [| split; [| split]]; try assumption.
  - destruct (py_int_base 2 _) as [x |]; [| discriminate].
    apply Z.eqb_eq in H. now subst.
  - destruct (socket_inet_aton _) as [l | |]; try discriminate.
    apply andb_prop in H2. destruct H2 as [Hl Hlen].
    f_equal. unfold be_bytes in *.
    destruct l as [| l0 [| l1 [| l2 [| l3 [| l4 l]]]]]; try discriminate.
    cbn [combine forallb fst snd] in Hl.
    do 4 (apply andb_prop in Hl; destruct Hl as [? Hl]).
    repeat match goal with Hx : (_ =? _) = true |- _ => apply Z.eqb_eq in Hx end.
    congruence.
  - now apply Z.eqb_eq.
Qed.

Lemma bits2int_masklen (s : string) (n : Z) :
  py_int s = Some n -> 1 <= n <= 32 ->
  bits2int (PStr s) = Ret (py_str (2 ^ 32 - 2 ^ (32 - n))).
Proof.
  intros Hs Hn. unfold bits2int. rewrite Hs.
  destruct (Z.leb_spec 1 n); [| lia]. destruct (Z.leb_spec n 32); [| lia].
  cbn [andb]. now rewrite (proj1 (masklen_facts n Hn)).
Qed.

Lemma bits2int_zero (s : string) :
  py_int s = Some 0 ->
  bits2int (PStr s)
  = Raise ValueError "Invalid netmask, outside of 1 <= m <= 32 range: 0".
Proof. intros Hs. unfold bits2int. rewrite Hs. reflexivity. Qed.

(** ** Numbers as addresses *)

Lemma be_value_be_bytes (x : Z) : 0 <= x < 2 ^ 32 -> be_value (be_bytes x) = x.
Proof.
  intros Hx. unfold be_value, be_bytes. cbn [nth].
  change 255 with (Z.ones 8). rewrite !Z.land_ones by lia.
  rewrite !Z.shiftr_div_pow2 by lia.
  change (2 ^ 8) with 256. change (2 ^ 24) with 16777216.
  change (2 ^ 16) with 65536. change (256 ^ 3) with 16777216.
  change (256 ^ 2) with 65536. change (256 ^ 1) with 256. change (256 ^ 0) with 1.
  change (2 ^ 32) with 4294967296 in Hx.
  Z.to_euclidean_division_equations. lia.
Qed.

Lemma digits_value_bound (base : Z) (s : string) :
  2 <= base ->
  forall acc, 0 <= acc ->
    forall_chars (is_digit_of base) s = true ->
    0 <= digits_value base acc s < (acc + 1) * base ^ Z.of_nat (String.length s).
Proof.
  intros Hb. induction s as [| c s IH]; intros acc Hacc Hd.
  - simpl. lia.
  - cbn [forall_chars] in Hd. apply andb_prop in Hd. destruct Hd as [Hc Hs].
    assert (Hv : 0 <= dval c < base).
    { unfold is_digit_of, dval in *. pose proof (digit_val_nonneg c) as Hnn.
      unfold dval in Hnn. destruct (digit_val c); [| discriminate].
      apply Z.ltb_lt in Hc. lia. }
    cbn [digits_value String.length]. rewrite Nat2Z.inj_succ, Z.pow_succ_r by lia.
    specialize (IH (acc * base + dval c) ltac:(nia) Hs).
    assert (0 < base ^ Z.of_nat (String.length s)) by (apply Z.pow_pos_nonneg; lia).
    nia.
Qed.

Lemma lor_zero_bytes (v : Z) : map2 Z.lor ([] ++ repeat 0 (4 - 0)) (be_bytes v) = be_bytes v.
Proof. unfold be_bytes. cbn [app repeat Nat.sub map2]. now rewrite !Z.lor_0_l. Qed.

(** A decimal numeral without a leading zero is the address of that value. *)
Lemma inet_aton_decimal (c : ascii) (s : string) :
  is_digit c = true -> c <> "0"%char -> forall_chars is_digit s = true ->
  digits_value 10 0 (String c s) <= 4294967295 ->
  inet_aton (String c s) = Some (be_bytes (digits_value 10 0 (String c s))).
Proof.
  intros Hc Hz Hs Hle.
  pose proof (strtoul0_decimal c s "" Hc Hz Hs (fun a => eq_refl)) as Hst.
  rewrite append_nil_r in Hst.
  unfold inet_aton. cbn [aton_parts]. rewrite Hc, Hst. cbn [negb].
  destruct (Z.ltb_spec 4294967295 (digits_value 10 0 (String c s))); [lia |].
  cbn [negb List.length nth aton_max].
  destruct (Z.ltb_spec 4294967295 (digits_value 10 0 (String c s))); [lia |].
  now rewrite lor_zero_bytes.
Qed.

Lemma is_hex_digit_16 (c : ascii) : is_hex c = true -> is_digit_of 16 c = true.
Proof. ascii_cases c; try discriminate; reflexivity. Qed.

Lemma is_hex_not_nul (c : ascii) : is_hex c = true -> Ascii.eqb c nul = false.
Proof. ascii_cases c; try discriminate; reflexivity. Qed.

Lemma is_digit_is_hex (c : ascii) : is_digit c = true -> is_hex c = true.
Proof. ascii_cases c; try discriminate; reflexivity. Qed.

Lemma hex_no_nul (s : string) : forall_chars is_hex s = true -> contains nul s = false.
Proof.
  induction s as [| c s IH]; simpl; [reflexivity |].
  intros H. apply andb_prop in H. destruct H as [Hc Hs].
  rewrite (is_hex_not_nul c Hc). exact (IH Hs).
Qed.

(** A string of at most eight hexadecimal digits after [0x] is the address
    of that value. *)
Lemma inet_aton_hex (s : string) :
  forall_chars is_hex s = true -> s <> "" -> (String.length s <= 8)%nat ->
  inet_aton ("0x" ++ s) = Some (be_bytes (digits_value 16 0 s)).
Proof.
  intros Hh Hne Hlen.
  assert (H16 : forall_chars (is_digit_of 16) s = true).
  { apply (forall_chars_impl is_hex); [apply is_hex_digit_16 | exact Hh]. }
  pose proof (digits_value_bound 16 s ltac:(lia) 0 ltac:(lia) H16) as Hb.
  assert (Hpow : 16 ^ Z.of_nat (String.length s) <= 16 ^ 8).
  { apply Z.pow_le_mono_r; lia. }
  change (16 ^ 8) with 4294967296 in Hpow.
  pose proof (parse_digits_app 16 s 0 "" H16 (fun a => eq_refl)) as Hp.
  rewrite append_nil_r in Hp.
  destruct s as [| h t]; [congruence |].
  assert (Hh16 : is_digit_of 16 h = true).
  { cbn [forall_chars] in H16. apply andb_prop in H16. tauto. }
  assert (Hst : strtoul0 ("0x" ++ String h t) = (digits_value 16 0 (String h t), "")).
  { cbn [append strtoul0]. unfold strtoul0. cbn [Ascii.eqb Bool.eqb orb andb].
    rewrite Hh16. exact Hp. }
  unfold inet_aton. cbn [append] in *. cbn [aton_parts].
  change (is_digit "0") with true. cbn [negb]. rewrite Hst.
  destruct (Z.ltb_spec 4294967295 (digits_value 16 0 (String h t))); [lia |].
  cbn [negb List.length nth aton_max].
  destruct (Z.ltb_spec 4294967295 (digits_value 16 0 (String h t))); [lia |].
  now rewrite lor_zero_bytes.
Qed.

Lemma digits_no_slash_dot (s : string) :
  forall_chars is_hex s = true ->
  contains "/" s = false /\ contains "." s = false.
Proof.
  intros H. split; apply (forall_chars_contains is_hex); auto.
Qed.

Section Tokens.

Variable ctor : string -> flags -> outcome Net.

(** The three cases of a token of decimal digits at lines 58 to 67. *)
Lemma dispatch_digits (s : string) (fl : flags) :
  forall_chars is_digit s = true -> s <> "" -> (String.length s <= 10)%nat ->
  dispatch ctor s fl
  = if digits_value 10 0 s =? 0 then
      Raise ValueError "Invalid netmask, outside of 1 <= m <= 32 range: 0"
    else if digits_value 10 0 s <=? 32 then
      Ret (py_str (2 ^ 32 - 2 ^ (32 - digits_value 10 0 s)), None)
    else Ret (s, None).
Proof.
  intros Hd Hne Hlen.
  destruct (digits_no_slash_dot s (forall_chars_impl _ _ s is_digit_is_hex Hd))
    as [Hslash Hdot].
  pose proof (digits_value_bound 10 s ltac:(lia) 0 ltac:(lia)
    (forall_chars_impl _ _ s (fun c H => eq_trans (is_digit_10 c) H) Hd)) as Hb.
  unfold dispatch. rewrite Hslash, Hdot. cbn [negb].
  rewrite forall_not_exists, Hd, (exists_digit_nonempty s Hd).
  destruct (String.eqb_spec s "") as [-> | _]; [congruence |].
  destruct (Nat.leb_spec (String.length s) 10); [| lia]. cbn [andb negb].
  rewrite (py_int_digits s Hd Hne).
  destruct (Z.eqb_spec (digits_value 10 0 s) 0) as [Hz | Hz].
  - rewrite Hz. cbn [Z.leb Z.compare].
    rewrite bits2int_zero; [reflexivity |].
    now rewrite (py_int_digits s Hd Hne), Hz.
  - destruct (Z.leb_spec (digits_value 10 0 s) 32); [| reflexivity].
    rewrite (bits2int_masklen s (digits_value 10 0 s)); [reflexivity | | lia].
    exact (py_int_digits s Hd Hne).
Qed.

(** A token of hexadecimal digits that are not all decimal, line 69. *)
Lemma dispatch_hex (s : string) (fl : flags) :
  forall_chars is_hex s = true -> forall_chars is_digit s = false ->
  (String.length s <= 8)%nat ->
  dispatch ctor s fl = Ret ("0x" ++ s, None).
Proof.
  intros Hh Hd Hlen. destruct (digits_no_slash_dot s Hh) as [Hslash Hdot].
  unfold dispatch. rewrite Hslash, Hdot. cbn [negb].
  rewrite !forall_not_exists, Hd, Hh. rewrite andb_false_r.
  destruct (Nat.leb_spec (String.length s) 8); [reflexivity | lia].
Qed.

End Tokens.

(** The constructor on a string without a slash, given what the dispatch
    says. *)
Lemma Net_init_base (fuel : nat) (net : string) (fl : flags) (base : string) :
  dispatch (Net_init fuel) net fl = Ret (base, None) ->
  Net_init (S fuel) net fl
  = (rw <- socket_inet_aton base ;; Ret (mkNet net None None rw (rendering rw fl))).
Proof.
  intros Hd. rewrite Net_init_S, Hd, bind_Ret.
  destruct (socket_inet_aton base) as [rw | cls msg |] eqn:Hraw;
    try (unfold populate; rewrite Hraw; reflexivity).
  now rewrite (populate_spec _ net fl base None rw Hraw).
Qed.

Lemma to_digits_aux_lower_hex (fuel : nat) :
  forall n acc,
    forall_chars is_lower_hex acc = true ->
    forall_chars is_lower_hex (to_digits_aux 16 fuel n acc) = true.
Proof.
  induction fuel as [| fuel IH]; intros n acc Hacc; simpl; [exact Hacc |].
  assert (Hm : 0 <= n mod 16 < 16) by (apply Z.mod_pos_bound; lia).
  assert (Hc : is_lower_hex (digit_char (n mod 16)) = true).
  { remember (n mod 16) as d eqn:Hd. clear Hd.
    assert (Hcase : d = 0 \/ d = 1 \/ d = 2 \/ d = 3 \/ d = 4 \/ d = 5 \/ d = 6 \/ d = 7
                    \/ d = 8 \/ d = 9 \/ d = 10 \/ d = 11 \/ d = 12 \/ d = 13
                    \/ d = 14 \/ d = 15) by lia.
    repeat (destruct Hcase as [-> | Hcase]; [reflexivity |]). subst d. reflexivity. }
  assert (Hacc' : forall_chars is_lower_hex (String (digit_char (n mod 16)) acc) = true).
  { cbn [forall_chars]. now rewrite Hc, Hacc. }
  destruct (n / 16 =? 0); [exact Hacc' | apply IH; exact Hacc'].
Qed.

Lemma format_int_lower_hex (w : nat) (n : Z) :
  0 <= n -> forall_chars is_lower_hex (format_int w 16 n) = true.
Proof.
  intros Hn. unfold format_int. destruct (Z.ltb_spec n 0); [lia |].
  unfold rjust. rewrite forall_chars_append.
  rewrite forall_chars_replicate by reflexivity.
  unfold to_digits. now rewrite to_digits_aux_lower_hex.
Qed.

Lemma masklen_text (n : Z) :
  1 <= n <= 32 ->
  forall_chars is_digit (py_str n) = true /\ py_str n <> ""
  /\ (String.length (py_str n) <= 10)%nat /\ digits_value 10 0 (py_str n) = n.
Proof.
  intros Hn.
  pose proof (forall_masklen
    (fun n => forall_chars is_digit (py_str n) && negb (String.eqb (py_str n) "")
              && (String.length (py_str n) <=? 10)%nat
              && (digits_value 10 0 (py_str n) =? n))
    ltac:(vm_compute; reflexivity) n Hn) as H.
  cbv beta in H. do 3 (apply andb_prop in H; destruct H as [H ?]).
  split; [exact H |]. split; [| split].
  - apply negb_true_iff in H2. now apply String.eqb_neq.
  - now apply Nat.leb_le.
  - now apply Z.eqb_eq.
Qed.

(** A token of decimal digits whose value is a mask length. *)
Lemma Net_init_masklen (fuel : nat) (s : string) (fl : flags) :
  forall_chars is_digit s = true -> s <> "" -> (String.length s <= 10)%nat ->
  1 <= digits_value 10 0 s <= 32 ->
  Net_init (S fuel) s fl
  = Ret (mkNet s None None (be_bytes (2 ^ 32 - 2 ^ (32 - digits_value 10 0 s)))
               (rendering (be_bytes (2 ^ 32 - 2 ^ (32 - digits_value 10 0 s))) fl)).
Proof.
  intros Hd Hne Hlen Hn.
  rewrite (Net_init_base fuel s fl (py_str (2 ^ 32 - 2 ^ (32 - digits_value 10 0 s)))).
  - now rewrite (proj1 (proj2 (masklen_facts _ Hn))).
  - rewrite (dispatch_digits _ s fl Hd Hne Hlen).
    destruct (Z.eqb_spec (digits_value 10 0 s) 0); [lia |].
    destruct (Z.leb_spec (digits_value 10 0 s) 32); [reflexivity | lia].
Qed.

Lemma Net_str_unfold (n : Net) :
  Net_str n
  = match masked n with
    | Some r =>
        match mask n with
        | Some m => ("   " ++ primary_line n) ++ (nl ++ " & ") ++ Net_str m
        | None => primary_line n
        end ++ (nl ++ " = ") ++ Net_str r
    | None =>
        match mask n with
        | Some m => ("   " ++ primary_line n) ++ (nl ++ " & ") ++ Net_str m
        | None => primary_line n
        end
    end.
Proof. destruct n as [o m r rw fs]. destruct m, r; reflexivity. Qed.

Lemma map2_land_nth (l1 l2 : list Z) (i : nat) :
  List.length l1 = 4%nat -> List.length l2 = 4%nat -> (i < 4)%nat ->
  nth i (map2 Z.land l1 l2) 0 = Z.land (nth i l1 0) (nth i l2 0).
Proof.
  intros H1 H2 Hi.
  destruct l1 as [| a0 [| a1 [| a2 [| a3 [| a4 l1]]]]]; try discriminate.
  destruct l2 as [| b0 [| b1 [| b2 [| b3 [| b4 l2]]]]]; try discriminate.
  destruct i as [| [| [| [| i]]]]; try lia; reflexivity.
Qed.

Lemma map2_land_diag (l : list Z) : map2 Z.land l l = l.
Proof. induction l as [| a l IH]; simpl; [reflexivity | now rewrite Z.land_diag, IH]. Qed.

Lemma map2_land_comm (l1 : list Z) : forall l2, map2 Z.land l1 l2 = map2 Z.land l2 l1.
Proof.
  induction l1 as [| a l1 IH]; intros [| b l2]; simpl; try reflexivity.
  now rewrite Z.land_comm, IH.
Qed.

(** * The claims *)

(** C3: for two values whose raw bytes are well formed (four bytes, each
    in 0..255), [A & B] never fails; it returns a new [Net] whose raw bytes
    are the bitwise AND of the raw bytes of [A] and [B] position by
    position, and whose display flags are those of [A]. *)
Theorem C3_and_bytewise (fuel : nat) (A B : Net) :
  bytes_ok (raw A) -> bytes_ok (raw B) ->
  exists r,
    Net_and (S fuel) A B = Ret r
    /\ raw r = map2 Z.land (raw A) (raw B)
    /\ (forall i, (i < 4)%nat ->
                  nth i (raw r) 0 = Z.land (nth i (raw A) 0) (nth i (raw B) 0))
    /\ shows r = shows A.
Proof.
  intros HA HB. eexists. split; [apply (Net_and_spec fuel A B HA HB) |].
  cbn [raw]. split; [reflexivity |]. split.
  - intros i Hi. apply map2_land_nth; [apply HA | apply HB | exact Hi].
  - apply shows_rendering.
Qed.

Lemma C3_witness :
  exists r,
    Net_and 1 net_1_2_3_4 net_mask_24 = Ret r
    /\ raw r = map2 Z.land (raw net_1_2_3_4) (raw net_mask_24)
    /\ (forall i, (i < 4)%nat ->
                  nth i (raw r) 0
                  = Z.land (nth i (raw net_1_2_3_4) 0) (nth i (raw net_mask_24) 0))
    /\ shows r = shows net_1_2_3_4.
Proof.
  apply (C3_and_bytewise 0 net_1_2_3_4 net_mask_24);
    (split; [reflexivity | repeat (apply Forall_cons; [lia |]); apply Forall_nil]).
Defined.

(** C9: for every [Net] [m] that the constructor built from a
    specification (a mask specification in particular), [m & m] succeeds and
    has the raw bytes of [m]. *)
Theorem C9_and_idempotent (fuel fuel' : nat) (spec : string) (fl : flags) (m : Net) :
  Net_init fuel spec fl = Ret m ->
  exists r, Net_and (S fuel') m m = Ret r /\ raw r = raw m.
Proof.
  intros Hm. pose proof (Net_init_bytes_ok fuel spec fl m Hm) as Hok.
  eexists. split; [apply (Net_and_spec fuel' m m Hok Hok) |].
  cbn [raw]. apply map2_land_diag.
Qed.

Lemma C9_witness :
  Net_init 1 "24" default_flags = Ret net_mask_24
  /\ exists r, Net_and 1 net_mask_24 net_mask_24 = Ret r /\ raw r = raw net_mask_24.
Proof.
  assert (H : Net_init 1 "24" default_flags = Ret net_mask_24) by (vm_compute; reflexivity).
  split; [exact H |].
  exact (C9_and_idempotent 1 0 "24" default_flags net_mask_24 H).
Defined.

(** C10: on values with well-formed raw bytes, [A & B] and [B & A] both
    succeed and have the same raw bytes; the display flags of each result
    are those of its left operand. *)
Theorem C10_and_commutative (fuel : nat) (A B : Net) :
  bytes_ok (raw A) -> bytes_ok (raw B) ->
  exists r1 r2,
    Net_and (S fuel) A B = Ret r1 /\ Net_and (S fuel) B A = Ret r2
    /\ raw r1 = raw r2 /\ shows r1 = shows A /\ shows r2 = shows B.
Proof.
  intros HA HB. eexists. eexists.
  split; [apply (Net_and_spec fuel A B HA HB) |].
  split; [apply (Net_and_spec fuel B A HB HA) |].
  cbn [raw]. split; [apply map2_land_comm |].
  split; apply shows_rendering.
Qed.

Lemma C10_witness :
  exists r1 r2,
    Net_and 1 net_1_2_3_4 net_mask_24 = Ret r1
    /\ Net_and 1 net_mask_24 net_1_2_3_4 = Ret r2
    /\ raw r1 = raw r2 /\ shows r1 = shows net_1_2_3_4 /\ shows r2 = shows net_mask_24.
Proof.
  apply (C10_and_commutative 0 net_1_2_3_4 net_mask_24);
    (split; [reflexivity | repeat (apply Forall_cons; [lia |]); apply Forall_nil]).
Defined.

(** C8: in every [Net] the constructor returns, [masked] is present
    exactly when [mask] is, the display flags are the ones passed in, and
    the mask and the masked address carry the same flags as their parent. *)
Theorem C8_children_share_formats (fuel : nat) (net : string) (fl : flags) (v : Net) :
  Net_init fuel net fl = Ret v ->
  ((exists m, mask v = Some m) <-> (exists r, masked v = Some r))
  /\ shows v = fl
  /\ (forall m, mask v = Some m -> shows m = shows v)
  /\ (forall r, masked v = Some r -> shows r = shows v).
Proof.
  intros Hv.
  destruct (Net_init_shape fuel net fl v Hv) as (rw & _ & [[_ ->] | [_ H]]).
  - cbn [mask masked]. rewrite shows_rendering.
    repeat split; try (intros [x Hx]; discriminate); intros x Hx; discriminate.
  - destruct H as (ms & rwm & _ & ->). cbn [mask masked]. rewrite shows_rendering.
    split; [split; intros _; eexists; reflexivity |].
    split; [reflexivity |].
    split; intros x Hx; injection Hx as <-; apply shows_rendering.
Qed.

Lemma C8_witness :
  exists v,
    Net_init 2 "1.2.3.4/24" default_flags = Ret v
    /\ ((exists m, mask v = Some m) <-> (exists r, masked v = Some r))
    /\ shows v = default_flags
    /\ (forall m, mask v = Some m -> shows m = shows v)
    /\ (forall r, masked v = Some r -> shows r = shows v).
Proof.
  eexists. split; [vm_compute; reflexivity |].
  apply (C8_children_share_formats 2 "1.2.3.4/24" default_flags).
  vm_compute. reflexivity.
Defined.

(** C6: for every [Net] the constructor returns, [__str__] lists the
    renderings whose flag is set, in the order quad, bin, dec, hex, joined
    by the separator of two spaces, [<=>] and two spaces (the primary
    line). Without a mask that is the whole string; with a mask the primary
    line follows three spaces, then come a new line, [ & ] and the string of
    the mask, and a new line, [ = ] and the string of the masked address,
    each of the two being its own primary line. *)
Theorem C6_str_layout (fuel : nat) (net : string) (fl : flags) (v : Net) :
  Net_init fuel net fl = Ret v ->
  primary_line v
  = join "  <=>  "
         (map (fun k => as_string (get_fmt (formats v) k))
              (filter (fun k => show (get_fmt (formats v) k)) [quad; bin; dec; hex]))
  /\ match mask v with
     | None => masked v = None /\ Net_str v = primary_line v
     | Some m =>
         exists r,
           masked v = Some r
           /\ Net_str v
              = "   " ++ primary_line v ++ nl ++ " & " ++ Net_str m
                ++ nl ++ " = " ++ Net_str r
           /\ Net_str m = primary_line m /\ Net_str r = primary_line r
     end.
Proof.
  intros Hv. split; [reflexivity |].
  destruct (Net_init_shape fuel net fl v Hv) as (rw & _ & [[_ ->] | [_ H]]).
  - cbn [mask masked]. split; [reflexivity |]. now rewrite Net_str_unfold.
  - destruct H as (ms & rwm & _ & ->). cbn [mask masked].
    eexists. split; [reflexivity |].
    rewrite !Net_str_unfold. cbn [mask masked].
    split; [| split; reflexivity].
    rewrite !append_assoc. reflexivity.
Qed.

Lemma C6_witness :
  exists v,
    Net_init 2 "1.2.3.4/24" default_flags = Ret v
    /\ primary_line v
       = join "  <=>  "
              (map (fun k => as_string (get_fmt (formats v) k))
                   (filter (fun k => show (get_fmt (formats v) k)) [quad; bin; dec; hex]))
    /\ match mask v with
       | None => masked v = None /\ Net_str v = primary_line v
       | Some m =>
           exists r,
             masked v = Some r
             /\ Net_str v
                = "   " ++ primary_line v ++ nl ++ " & " ++ Net_str m
                  ++ nl ++ " = " ++ Net_str r
             /\ Net_str m = primary_line m /\ Net_str r = primary_line r
       end.
Proof.
  eexists. split; [vm_compute; reflexivity |].
  apply (C6_str_layout 2 "1.2.3.4/24" default_flags).
  vm_compute. reflexivity.
Defined.

(** The decimal and hexadecimal renderings of four well-formed bytes. *)
Lemma rendering_dec_hex (rw : list Z) (fl : flags) :
  bytes_ok rw ->
  String.length (as_string (f_dec (rendering rw fl))) = 10%nat
  /\ forall_chars is_digit (as_string (f_dec (rendering rw fl))) = true
  /\ digits_value 10 0 (as_string (f_dec (rendering rw fl))) = be_value rw
  /\ String.length (as_string (f_hex (rendering rw fl))) = 8%nat
  /\ forall_chars is_lower_hex (as_string (f_hex (rendering rw fl))) = true
  /\ digits_value 16 0 (as_string (f_hex (rendering rw fl))) = be_value rw.
Proof.
  intros Hok. apply bytes_ok_4 in Hok.
  destruct Hok as (a & b & c & d & -> & Ha & Hb & Hc & Hd).
  pose proof (be_value_bounds a b c d Ha Hb Hc Hd) as Hv.
  cbn [rendering f_dec f_hex as_string].
  remember (be_value [a; b; c; d]) as V eqn:HV. clear HV.
  destruct (format_int_digits 10 10 V ltac:(lia) ltac:(lia)) as (Hd10 & Hv10 & _).
  destruct (format_int_digits 8 16 V ltac:(lia) ltac:(lia)) as (_ & Hv16 & _).
  split; [apply format_int_length; lia |].
  split; [apply (forall_chars_impl (is_digit_of 10)); [| exact Hd10];
          intros x; now rewrite is_digit_10 |].
  split; [exact Hv10 |].
  split; [apply format_int_length; [lia | | lia]; change (16 ^ Z.of_nat 8) with (2 ^ 32); lia |].
  split; [apply format_int_lower_hex; lia | exact Hv16].
Qed.

(** C5, as the code has it: for the dotted quad [a.b.c.d] whose octets are
    written as decimal numerals without leading zeros, each in 0..255,
    construction succeeds; the decimal rendering is the number
    [a*256^3 + b*256^2 + c*256 + d] padded with zeros to exactly ten decimal
    digits, and the hexadecimal rendering is the same number padded with
    zeros to exactly eight lower-case hexadecimal digits. For every other
    dotted text without a slash that [socket.inet_aton] accepts, the two
    renderings are in the same way those of the big-endian value of the
    bytes [socket.inet_aton] returns: an octet written with a leading zero
    is read as octal, so [010.0.0.1] is rendered as 8.0.0.1, that is
    [0134217729] and [08000001]. *)
Theorem C5_decimal_and_hex (fuel : nat) (fl : flags) :
  (forall a b c d,
      0 <= a < 256 -> 0 <= b < 256 -> 0 <= c < 256 -> 0 <= d < 256 ->
      exists v,
        Net_init (S fuel) (join "." (map py_str [a; b; c; d])) fl = Ret v
        /\ raw v = [a; b; c; d]
        /\ as_string (get_fmt (formats v) dec)
           = format_int 10 10 (a * 256 ^ 3 + b * 256 ^ 2 + c * 256 + d)
        /\ String.length (as_string (get_fmt (formats v) dec)) = 10%nat
        /\ forall_chars is_digit (as_string (get_fmt (formats v) dec)) = true
        /\ digits_value 10 0 (as_string (get_fmt (formats v) dec))
           = a * 256 ^ 3 + b * 256 ^ 2 + c * 256 + d
        /\ as_string (get_fmt (formats v) hex)
           = format_int 8 16 (a * 256 ^ 3 + b * 256 ^ 2 + c * 256 + d)
        /\ String.length (as_string (get_fmt (formats v) hex)) = 8%nat
        /\ forall_chars is_lower_hex (as_string (get_fmt (formats v) hex)) = true
        /\ digits_value 16 0 (as_string (get_fmt (formats v) hex))
           = a * 256 ^ 3 + b * 256 ^ 2 + c * 256 + d)
  /\ (forall net rw,
         contains "/" net = false -> contains "." net = true ->
         socket_inet_aton net = Ret rw ->
         exists v,
           Net_init (S fuel) net fl = Ret v
           /\ raw v = rw
           /\ as_string (get_fmt (formats v) dec) = format_int 10 10 (be_value rw)
           /\ String.length (as_string (get_fmt (formats v) dec)) = 10%nat
           /\ forall_chars is_digit (as_string (get_fmt (formats v) dec)) = true
           /\ digits_value 10 0 (as_string (get_fmt (formats v) dec)) = be_value rw
           /\ as_string (get_fmt (formats v) hex) = format_int 8 16 (be_value rw)
           /\ String.length (as_string (get_fmt (formats v) hex)) = 8%nat
           /\ forall_chars is_lower_hex (as_string (get_fmt (formats v) hex)) = true
           /\ digits_value 16 0 (as_string (get_fmt (formats v) hex)) = be_value rw)
  /\ (exists v,
         Net_init (S fuel) "010.0.0.1" fl = Ret v
         /\ raw v = [8; 0; 0; 1]
         /\ as_string (get_fmt (formats v) dec) = "0134217729"
         /\ as_string (get_fmt (formats v) hex) = "08000001").
Proof.
  assert (Hgen : forall net rw,
             contains "/" net = false -> contains "." net = true ->
             socket_inet_aton net = Ret rw ->
             Net_init (S fuel) net fl = Ret (mkNet net None None rw (rendering rw fl))).
  { intros net rw Hs Hd Hraw. rewrite (Net_init_base fuel net fl net).
    - now rewrite Hraw.
    - unfold dispatch. now rewrite Hs, Hd. }
  split; [| split].
  - intros a b c d Ha Hb Hc Hd. eexists.
    split; [apply (Net_init_text fuel a b c d fl Ha Hb Hc Hd) |].
    cbn [raw formats get_fmt].
    destruct (rendering_dec_hex [a; b; c; d] fl (bytes_ok_intro a b c d Ha Hb Hc Hd))
      as (L10 & D10 & V10 & L16 & D16 & V16).
    assert (Heq : be_value [a; b; c; d] = a * 256 ^ 3 + b * 256 ^ 2 + c * 256 + d).
    { unfold be_value. cbn [nth]. lia. }
    rewrite Heq in V10, V16.
    split; [reflexivity |].
    split; [cbn [rendering f_dec as_string]; now rewrite Heq |].
    split; [exact L10 |]. split; [exact D10 |]. split; [exact V10 |].
    split; [cbn [rendering f_hex as_string]; now rewrite Heq |].
    split; [exact L16 |]. split; [exact D16 | exact V16].
  - intros net rw Hs Hd Hraw. eexists.
    split; [apply (Hgen net rw Hs Hd Hraw) |].
    cbn [raw formats get_fmt].
    destruct (rendering_dec_hex rw fl (socket_inet_aton_ok net rw Hraw))
      as (L10 & D10 & V10 & L16 & D16 & V16).
    split; [reflexivity |]. split; [reflexivity |].
    split; [exact L10 |]. split; [exact D10 |]. split; [exact V10 |].
    split; [reflexivity |].
    split; [exact L16 |]. split; [exact D16 | exact V16].
  - eexists.
    split; [apply (Hgen "010.0.0.1" [8; 0; 0; 1]); reflexivity |].
    cbn [raw formats get_fmt]. repeat split; reflexivity.
Qed.

Lemma C5_witness :
  (exists v,
      Net_init 1 (join "." (map py_str [1; 2; 3; 4])) default_flags = Ret v
      /\ raw v = [1; 2; 3; 4]
      /\ as_string (get_fmt (formats v) dec)
         = format_int 10 10 (1 * 256 ^ 3 + 2 * 256 ^ 2 + 3 * 256 + 4)
      /\ String.length (as_string (get_fmt (formats v) dec)) = 10%nat
      /\ forall_chars is_digit (as_string (get_fmt (formats v) dec)) = true
      /\ digits_value 10 0 (as_string (get_fmt (formats v) dec))
         = 1 * 256 ^ 3 + 2 * 256 ^ 2 + 3 * 256 + 4
      /\ as_string (get_fmt (formats v) hex)
         = format_int 8 16 (1 * 256 ^ 3 + 2 * 256 ^ 2 + 3 * 256 + 4)
      /\ String.length (as_string (get_fmt (formats v) hex)) = 8%nat
      /\ forall_chars is_lower_hex (as_string (get_fmt (formats v) hex)) = true
      /\ digits_value 16 0 (as_string (get_fmt (formats v) hex))
         = 1 * 256 ^ 3 + 2 * 256 ^ 2 + 3 * 256 + 4)
  /\ (exists v,
         Net_init 1 "010.0.0.1" default_flags = Ret v
         /\ raw v = [8; 0; 0; 1]
         /\ as_string (get_fmt (formats v) dec) = format_int 10 10 (be_value [8; 0; 0; 1])
         /\ String.length (as_string (get_fmt (formats v) dec)) = 10%nat
         /\ forall_chars is_digit (as_string (get_fmt (formats v) dec)) = true
         /\ digits_value 10 0 (as_string (get_fmt (formats v) dec)) = be_value [8; 0; 0; 1]
         /\ as_string (get_fmt (formats v) hex) = format_int 8 16 (be_value [8; 0; 0; 1])
         /\ String.length (as_string (get_fmt (formats v) hex)) = 8%nat
         /\ forall_chars is_lower_hex (as_string (get_fmt (formats v) hex)) = true
         /\ digits_value 16 0 (as_string (get_fmt (formats v) hex)) = be_value [8; 0; 0; 1]).
Proof.
  split.
  - apply (proj1 (C5_decimal_and_hex 0 default_flags) 1 2 3 4); lia.
  - apply (proj1 (proj2 (C5_decimal_and_hex 0 default_flags)) "010.0.0.1" [8; 0; 0; 1]);
      [reflexivity | reflexivity | vm_compute; reflexivity].
Defined.

(** C5 as stated fails: the dotted quad [010.0.0.1], with the octets 10, 0,
    0 and 1, constructs, but its decimal and hexadecimal renderings are not
    those of [10*256^3 + 0*256^2 + 0*256 + 1]: the first octet is read as
    octal. *)
Lemma C5_counterexample :
  exists v,
    Net_init 2 "010.0.0.1" default_flags = Ret v
    /\ as_string (get_fmt (formats v) dec) = "0134217729"
    /\ as_string (get_fmt (formats v) dec)
       <> format_int 10 10 (10 * 256 ^ 3 + 0 * 256 ^ 2 + 0 * 256 + 1)
    /\ as_string (get_fmt (formats v) hex) = "08000001"
    /\ as_string (get_fmt (formats v) hex)
       <> format_int 8 16 (10 * 256 ^ 3 + 0 * 256 ^ 2 + 0 * 256 + 1).
Proof.
  eexists. split; [vm_compute; reflexivity |].
  split; [vm_compute; reflexivity |].
  split; [intros H; vm_compute in H; discriminate |].
  split; [vm_compute; reflexivity |].
  intros H; vm_compute in H; discriminate.
Qed.

(** C4: for a base text [X] without a slash that [socket.inet_aton]
    accepts, with bytes [rawX], and a mask length [N] in 1..32, constructing
    [X/N] succeeds; the raw bytes are [rawX], the mask has the big-endian
    value [2^32 - 2^(32-N)] (which its decimal rendering shows), and the
    bytes of the masked address are the bitwise AND of those of [X] and of
    the mask, position by position. *)
Theorem C4_cidr_mask (fuel : nat) (X : string) (rawX : list Z) (N : Z) (fl : flags) :
  contains "/" X = false -> socket_inet_aton X = Ret rawX -> 1 <= N <= 32 ->
  exists v m r,
    Net_init (S (S fuel)) (X ++ "/" ++ py_str N) fl = Ret v
    /\ raw v = rawX /\ mask v = Some m /\ masked v = Some r
    /\ be_value (raw m) = 2 ^ 32 - 2 ^ (32 - N)
    /\ as_string (get_fmt (formats m) dec) = format_int 10 10 (2 ^ 32 - 2 ^ (32 - N))
    /\ forall i, (i < 4)%nat ->
                 nth i (raw r) 0 = Z.land (nth i rawX 0) (nth i (raw m) 0).
Proof.
  intros HX Hraw HN.
  destruct (masklen_text N HN) as (Hd & Hne & Hlen & Hval).
  destruct (digits_no_slash_dot _ (forall_chars_impl _ _ _ is_digit_is_hex Hd))
    as [HNslash _].
  assert (Hcount : count "/" (X ++ "/" ++ py_str N) = 1%nat).
  { rewrite count_append. cbn [append count Ascii.eqb Bool.eqb].
    apply contains_false_count in HX. apply contains_false_count in HNslash.
    rewrite HX, HNslash. reflexivity. }
  destruct (Net_init_slash fuel _ fl Hcount) as (b & m & Hs & _ & _ & _ & Heq).
  change (X ++ "/" ++ py_str N) with (X ++ String "/" (py_str N)) in Hs.
  rewrite (split_cons "/" X _ HX), (split_none "/" _ HNslash) in Hs.
  injection Hs as <- <-.
  rewrite Heq. clear Heq.
  rewrite (Net_init_masklen fuel (py_str N) fl Hd Hne Hlen) by (rewrite Hval; exact HN).
  rewrite Hval, bind_Ret, Hraw, bind_Ret.
  pose proof (socket_inet_aton_ok X rawX Hraw) as HokX.
  pose proof (be_bytes_ok (2 ^ 32 - 2 ^ (32 - N))) as Hokm.
  rewrite Net_and_spec by assumption. rewrite bind_Ret.
  eexists. eexists. eexists. split; [reflexivity |].
  split; [reflexivity |]. split; [reflexivity |]. split; [reflexivity |].
  cbn [raw mask masked formats get_fmt rendering f_dec as_string].
  destruct (masklen_facts N HN) as (_ & _ & Hbe & _).
  split; [exact Hbe |]. split; [now rewrite Hbe |].
  intros i Hi. apply map2_land_nth; [apply HokX | apply Hokm | exact Hi].
Qed.

Lemma C4_witness :
  exists v m r,
    Net_init 2 ("1.2.3.4" ++ "/" ++ py_str 24) default_flags = Ret v
    /\ raw v = [1; 2; 3; 4] /\ mask v = Some m /\ masked v = Some r
    /\ be_value (raw m) = 2 ^ 32 - 2 ^ (32 - 24)
    /\ as_string (get_fmt (formats m) dec) = format_int 10 10 (2 ^ 32 - 2 ^ (32 - 24))
    /\ forall i, (i < 4)%nat ->
                 nth i (raw r) 0 = Z.land (nth i [1; 2; 3; 4] 0) (nth i (raw m) 0).
Proof.
  apply (C4_cidr_mask 0 "1.2.3.4" [1; 2; 3; 4] 24 default_flags);
    [reflexivity | vm_compute; reflexivity | lia].
Defined.



Lemma forall_bit32 (P : Z -> bool) :
  forallb P (map Z.of_nat (seq 0 32)) = true -> forall i, 0 <= i < 32 -> P i = true.
Proof.
  intros H i Hi. rewrite forallb_forall in H. apply H.
  apply in_map_iff. exists (Z.to_nat i). split.
  - apply Z2Nat.id. lia.
  - apply in_seq. lia.
Qed.

Lemma digits_no_nul (s : string) : forall_chars is_digit s = true -> contains nul s = false.
Proof.
  intros H. apply hex_no_nul. exact (forall_chars_impl _ _ s is_digit_is_hex H).
Qed.

(** C1, as the code has it: for a specification with exactly one slash the
    constructor splits it into the base and the mask specification, builds
    the mask by constructing a [Net] from the mask specification, and hands
    the base as it is to [socket.inet_aton]: no mask-length expansion and no
    [0x] prefix are applied to it. The base [24] of [24/8] is the address
    0.0.0.24, and [ff/8] fails with [InvalidAddress]. *)
Theorem C1_slash_base_as_is (fuel : nat) (fl : flags) :
  (forall net, count "/" net = 1%nat ->
     exists base maskSpec,
       split "/" net = [base; maskSpec] /\ net = base ++ "/" ++ maskSpec
       /\ Net_init (S (S fuel)) net fl
          = (msk <- Net_init (S fuel) maskSpec fl ;;
             rw <- socket_inet_aton base ;;
             r <- Net_and (S fuel) (mkNet net (Some msk) None rw (rendering rw fl)) msk ;;
             Ret (mkNet net (Some msk) (Some r) rw (rendering rw fl))))
  /\ raw_of (Net_init (S (S fuel)) "24/8" fl) = Ret [0; 0; 0; 24]
  /\ raises (Net_init (S (S fuel)) "ff/8" fl) InvalidAddress.
Proof.
  assert (Hmask : Net_init (S fuel) "8" fl
                  = Ret (mkNet "8" None None [255; 0; 0; 0] (rendering [255; 0; 0; 0] fl))).
  { rewrite (Net_init_masklen fuel "8" fl eq_refl); [reflexivity | discriminate | | ];
      cbn; lia. }
  split; [| split].
  - intros net Hc.
    destruct (Net_init_slash fuel net fl Hc) as (b & m & Hs & Hnet & _ & _ & Heq).
    exists b, m. auto.
  - destruct (Net_init_slash fuel "24/8" fl eq_refl) as (b & m & Hs & _ & _ & _ & Heq).
    injection Hs as <- <-. rewrite Heq, Hmask, bind_Ret.
    change (socket_inet_aton "24") with (@Ret (list Z) [0; 0; 0; 24]).
    rewrite bind_Ret, Net_and_spec; [reflexivity | |]; apply bytes_ok_intro; lia.
  - destruct (Net_init_slash fuel "ff/8" fl eq_refl) as (b & m & Hs & _ & _ & _ & Heq).
    injection Hs as <- <-. rewrite Heq, Hmask, bind_Ret.
    eexists. reflexivity.
Qed.

Lemma C1_witness :
  exists base maskSpec,
    split "/" "24/8" = [base; maskSpec] /\ "24/8" = base ++ "/" ++ maskSpec
    /\ Net_init 2 "24/8" default_flags
       = (msk <- Net_init 1 maskSpec default_flags ;;
          rw <- socket_inet_aton base ;;
          r <- Net_and 1 (mkNet "24/8" (Some msk) None rw (rendering rw default_flags)) msk ;;
          Ret (mkNet "24/8" (Some msk) (Some r) rw (rendering rw default_flags))).
Proof.
  apply (proj1 (C1_slash_base_as_is 0 default_flags) "24/8"). reflexivity.
Defined.

(** C1 as stated fails: the base of [24/8] is not treated as the
    slash-free string [24] is, and the base of [ff/8] is not read as the
    slash-free [ff] is. *)
Lemma C1_counterexample :
  raw_of (Net_init 2 "24/8" default_flags) <> raw_of (Net_init 2 "24" default_flags)
  /\ raw_of (Net_init 2 "24/8" default_flags) = Ret [0; 0; 0; 24]
  /\ raw_of (Net_init 2 "24" default_flags) = Ret [255; 255; 255; 0]
  /\ raw_of (Net_init 2 "ff/8" default_flags)
     = Raise OSError "illegal IP address string passed to inet_aton"
  /\ raw_of (Net_init 2 "ff" default_flags) = Ret [0; 0; 0; 255].
Proof.
  split; [intros H; vm_compute in H; discriminate |].
  repeat split; vm_compute; reflexivity.
Qed.

(** C2, as the code has it: a slash-free, dot-free token of at most ten
    decimal digits is a mask length when its value is in 1..32 and is then
    expanded to that many leading one bits; the value 0 is rejected by
    [bits2int] with [InvalidFormat]; a value above 32 leaves the digit
    string itself as the base address, which for a numeral without a
    leading zero and below 2^32 is the address of that value, so [256] is
    0.0.1.0. A token of at most eight hexadecimal digits that are not all
    decimal is the address of its hexadecimal value, so [ff] is 0.0.0.255. *)
Theorem C2_numeric_tokens (fuel : nat) (fl : flags) :
  (forall s,
      forall_chars is_digit s = true -> s <> "" -> (String.length s <= 10)%nat ->
      let n := digits_value 10 0 s in
      py_int s = Some n
      /\ (1 <= n <= 32 ->
          Net_init (S fuel) s fl
          = Ret (mkNet s None None (be_bytes (2 ^ 32 - 2 ^ (32 - n)))
                       (rendering (be_bytes (2 ^ 32 - 2 ^ (32 - n))) fl))
          /\ be_value (be_bytes (2 ^ 32 - 2 ^ (32 - n))) = 2 ^ 32 - 2 ^ (32 - n)
          /\ forall i, 0 <= i < 32 ->
                       Z.testbit (2 ^ 32 - 2 ^ (32 - n)) i = (32 - n <=? i))
      /\ (n = 0 ->
          Net_init (S fuel) s fl
          = Raise InvalidFormat "Invalid netmask, outside of 1 <= m <= 32 range: 0")
      /\ (32 < n ->
          Net_init (S fuel) s fl
          = (rw <- socket_inet_aton s ;; Ret (mkNet s None None rw (rendering rw fl))))
      /\ (32 < n <= 4294967295 -> (forall t, s <> String "0" t) ->
          Net_init (S fuel) s fl
          = Ret (mkNet s None None (be_bytes n) (rendering (be_bytes n) fl))
          /\ be_value (be_bytes n) = n))
  /\ (forall s,
         forall_chars is_hex s = true -> forall_chars is_digit s = false ->
         (String.length s <= 8)%nat ->
         Net_init (S fuel) s fl
         = Ret (mkNet s None None (be_bytes (digits_value 16 0 s))
                      (rendering (be_bytes (digits_value 16 0 s)) fl))
         /\ be_value (be_bytes (digits_value 16 0 s)) = digits_value 16 0 s)
  /\ raw_of (Net_init (S fuel) "256" fl) = Ret [0; 0; 1; 0]
  /\ raw_of (Net_init (S fuel) "ff" fl) = Ret [0; 0; 0; 255].
Proof.
  assert (Hbig : forall s,
             forall_chars is_digit s = true -> s <> "" -> (String.length s <= 10)%nat ->
             32 < digits_value 10 0 s ->
             Net_init (S fuel) s fl
             = (rw <- socket_inet_aton s ;; Ret (mkNet s None None rw (rendering rw fl)))).
  { intros s Hd Hne Hlen Hn. apply Net_init_base.
    rewrite (dispatch_digits _ s fl Hd Hne Hlen).
    destruct (Z.eqb_spec (digits_value 10 0 s) 0); [lia |].
    destruct (Z.leb_spec (digits_value 10 0 s) 32); [lia | reflexivity]. }
  assert (Hdec : forall s,
             forall_chars is_digit s = true -> s <> "" -> (String.length s <= 10)%nat ->
             32 < digits_value 10 0 s <= 4294967295 -> (forall t, s <> String "0" t) ->
             Net_init (S fuel) s fl
             = Ret (mkNet s None None (be_bytes (digits_value 10 0 s))
                          (rendering (be_bytes (digits_value 10 0 s)) fl))).
  { intros s Hd Hne Hlen Hn Hz. rewrite (Hbig s Hd Hne Hlen) by lia.
    unfold socket_inet_aton. rewrite (digits_no_nul s Hd).
    destruct s as [| c t]; [congruence |].
    cbn [forall_chars] in Hd. apply andb_prop in Hd. destruct Hd as [Hc Ht].
    rewrite (inet_aton_decimal c t Hc); [reflexivity | | exact Ht | lia].
    intros ->. exact (Hz t eq_refl). }
  assert (Hhex : forall s,
             forall_chars is_hex s = true -> forall_chars is_digit s = false ->
             (String.length s <= 8)%nat ->
             Net_init (S fuel) s fl
             = Ret (mkNet s None None (be_bytes (digits_value 16 0 s))
                          (rendering (be_bytes (digits_value 16 0 s)) fl))
             /\ be_value (be_bytes (digits_value 16 0 s)) = digits_value 16 0 s).
  { intros s Hh Hd Hlen.
    assert (Hne : s <> "") by (intros ->; discriminate).
    split.
    - rewrite (Net_init_base fuel s fl ("0x" ++ s)) by (now apply dispatch_hex).
      unfold socket_inet_aton.
      replace (contains nul ("0x" ++ s)) with false
        by (symmetry; cbn; now apply hex_no_nul).
      now rewrite (inet_aton_hex s Hh Hne Hlen).
    - apply be_value_be_bytes.
      pose proof (digits_value_bound 16 s ltac:(lia) 0 ltac:(lia)
        (forall_chars_impl _ _ s is_hex_digit_16 Hh)) as Hb.
      assert (16 ^ Z.of_nat (String.length s) <= 16 ^ 8) by (apply Z.pow_le_mono_r; lia).
      change (16 ^ 8) with (2 ^ 32) in *. lia. }
  split; [| split; [exact Hhex | split]].
  - intros s Hd Hne Hlen n. subst n.
    split; [exact (py_int_digits s Hd Hne) |].
    split; [| split; [| split]].
    + intros Hn. split; [now apply Net_init_masklen |].
      destruct (masklen_facts _ Hn) as (_ & _ & Hbe & Hbits).
      split; [exact Hbe |]. intros i Hi.
      pose proof (forall_bit32 _ Hbits i Hi) as Hb. cbv beta in Hb.
      now apply Bool.eqb_prop in Hb.
    + intros Hz. rewrite Net_init_S, (dispatch_digits _ s fl Hd Hne Hlen), Hz.
      reflexivity.
    + intros Hn. now apply Hbig.
    + intros Hn Hz. split; [now apply Hdec |].
      apply be_value_be_bytes. change (2 ^ 32) with 4294967296. lia.
  - rewrite (Hdec "256" eq_refl); [reflexivity | discriminate | | | ];
      try (cbn; lia). intros t Ht. discriminate.
  - rewrite (proj1 (Hhex "ff" eq_refl eq_refl ltac:(cbn; lia))). reflexivity.
Qed.

Lemma C2_witness :
  Net_init 1 "24" default_flags
  = Ret (mkNet "24" None None (be_bytes (2 ^ 32 - 2 ^ (32 - 24)))
               (rendering (be_bytes (2 ^ 32 - 2 ^ (32 - 24))) default_flags))
  /\ Net_init 1 "0" default_flags
     = Raise InvalidFormat "Invalid netmask, outside of 1 <= m <= 32 range: 0"
  /\ Net_init 1 "256" default_flags
     = Ret (mkNet "256" None None (be_bytes 256) (rendering (be_bytes 256) default_flags))
  /\ Net_init 1 "ff" default_flags
     = Ret (mkNet "ff" None None (be_bytes 255) (rendering (be_bytes 255) default_flags)).
Proof.
  destruct (C2_numeric_tokens 0 default_flags) as (Hd & Hh & _).
  split; [| split; [| split]].
  - destruct (Hd "24" eq_refl ltac:(discriminate) ltac:(cbn; lia)) as (_ & H & _).
    apply H. cbn. lia.
  - destruct (Hd "0" eq_refl ltac:(discriminate) ltac:(cbn; lia)) as (_ & _ & H & _).
    apply H. reflexivity.
  - destruct (Hd "256" eq_refl ltac:(discriminate) ltac:(cbn; lia)) as (_ & _ & _ & _ & H).
    apply H; [cbn; lia | intros t Ht; discriminate].
  - apply (Hh "ff"); [reflexivity | reflexivity | cbn; lia].
Defined.

(** C2 as stated fails: the token [0] is not used as the literal address
    0.0.0.0 but rejected, and a numeral with a leading zero such as [0100]
    is not the address of its decimal value. *)
Lemma C2_counterexample :
  ~ (exists v, Net_init 2 "0" default_flags = Ret v /\ raw v = be_bytes 0)
  /\ Net_init 2 "0" default_flags
     = Raise InvalidFormat "Invalid netmask, outside of 1 <= m <= 32 range: 0"
  /\ raw_of (Net_init 2 "0100" default_flags) <> Ret (be_bytes 100)
  /\ raw_of (Net_init 2 "0100" default_flags) = Ret [0; 0; 0; 64].
Proof.
  split; [intros (v & H & _); vm_compute in H; discriminate |].
  split; [vm_compute; reflexivity |].
  split; [intros H; vm_compute in H; discriminate | vm_compute; reflexivity].
Qed.

(** * Further properties of the code *)

(** ** bits2int *)



(** ** What the constructor raises *)

Lemma dispatch_noslash_class (ctor : string -> flags -> outcome Net)
      (net : string) (fl : flags) :
  contains "/" net = false ->
  match dispatch ctor net fl with
  | Ret (_, m) => m = None
  | Raise cls _ => cls = ValueError
  | OutOfFuel => False
  end.
Proof.
  intros H. unfold dispatch. rewrite H.
  destruct (negb (contains "." net)); [| reflexivity].
  destruct (_ && negb (exists_char (fun c => negb (is_digit c)) net)).
  - destruct (py_int net) as [n |] eqn:Hn; [| reflexivity].
    destruct (n <=? 32); [| reflexivity].
    unfold bits2int. rewrite Hn.
    destruct ((1 <=? n) && (n <=? 32)); [| reflexivity].
    destruct (py_int_base 2 _); reflexivity.
  - destruct (_ && negb (exists_char (fun c => negb (is_hex c)) net)); reflexivity.
Qed.

Lemma socket_inet_aton_caught (s : string) : caught (socket_inet_aton s).
Proof.
  unfold socket_inet_aton. destruct (contains nul s); [exact I |].
  destruct (inet_aton s); exact I.
Qed.

Lemma Net_init_noslash_caught (fuel : nat) (net : string) (fl : flags) :
  contains "/" net = false -> caught (Net_init (S fuel) net fl).
Proof.
  intros H. rewrite Net_init_S.
  pose proof (dispatch_noslash_class (Net_init fuel) net fl H) as Hd.
  destruct (dispatch (Net_init fuel) net fl) as [[b m] | cls msg |];
    [subst m | subst cls; exact I | contradiction].
  rewrite bind_Ret.
  pose proof (socket_inet_aton_caught b) as Hc.
  destruct (socket_inet_aton b) as [rw | cls msg |] eqn:Hraw.
  - rewrite (populate_spec _ net fl b None rw Hraw). exact I.
  - unfold populate. rewrite Hraw. exact Hc.
  - contradiction.
Qed.

Lemma Net_init_caught (fuel : nat) (net : string) (fl : flags) :
  caught (Net_init (S (S fuel)) net fl).
Proof.
  destruct (count "/" net) as [| [| k]] eqn:Hc.
  - apply Net_init_noslash_caught. now apply contains_false_count.
  - destruct (Net_init_slash fuel net fl Hc) as (b & m & _ & _ & _ & Hm & Heq).
    rewrite Heq. clear Heq.
    pose proof (Net_init_noslash_caught fuel m fl Hm) as Hmc.
    destruct (Net_init (S fuel) m fl) as [msk | cls msg |] eqn:Hmsk;
      [| exact Hmc | contradiction].
    rewrite bind_Ret.
    pose proof (socket_inet_aton_caught b) as Hbc.
    destruct (socket_inet_aton b) as [rw | cls msg |] eqn:Hraw;
      [| exact Hbc | contradiction].
    rewrite bind_Ret.
    rewrite Net_and_spec;
      [exact I | exact (socket_inet_aton_ok _ _ Hraw)
       | exact (Net_init_bytes_ok _ _ _ _ Hmsk)].
  - rewrite Net_init_S. unfold dispatch. rewrite contains_count, Hc. exact I.
Qed.

(** X2: whatever the specification and the flags, the constructor
    terminates within two nested calls and returns a [Net] or raises
    [ValueError] or [OSError]: no [struct] or index error escapes, and
    deeper recursion never changes the outcome. *)
Theorem X2_constructor_raises_only_caught (fuel : nat) (net : string) (fl : flags) :
  caught (Net_init (S (S fuel)) net fl)
  /\ Net_init (S (S fuel)) net fl = Net_init 2 net fl.
Proof.
  split.
  - apply Net_init_caught.
  - apply Net_init_fuel.
Qed.

Lemma map2_land_ok (l1 l2 : list Z) :
  bytes_ok l1 -> bytes_ok l2 -> bytes_ok (map2 Z.land l1 l2).
Proof.
  intros H1 H2.
  apply bytes_ok_4 in H1. destruct H1 as (a0 & a1 & a2 & a3 & -> & ? & ? & ? & ?).
  apply bytes_ok_4 in H2. destruct H2 as (b0 & b1 & b2 & b3 & -> & ? & ? & ? & ?).
  cbn [map2]. apply bytes_ok_intro; apply land_byte; assumption.
Qed.

(** X3: the raw bytes of every [Net] the constructor returns, and of its
    mask and masked address when it has them, are four numbers in 0..255. *)
Theorem X3_raw_is_four_bytes (fuel : nat) (net : string) (fl : flags) (v : Net) :
  Net_init fuel net fl = Ret v ->
  bytes_ok (raw v)
  /\ (forall m, mask v = Some m -> bytes_ok (raw m))
  /\ (forall r, masked v = Some r -> bytes_ok (raw r)).
Proof.
  intros Hv.
  destruct (Net_init_shape fuel net fl v Hv) as (rw & Hok & [[_ ->] | [_ H]]).
  - cbn [raw mask masked]. split; [exact Hok |]. split; intros x Hx; discriminate.
  - destruct H as (ms & rwm & Hokm & ->). cbn [raw mask masked].
    split; [exact Hok |].
    split; intros x Hx; injection Hx as <-; cbn [raw];
      [exact Hokm | now apply map2_land_ok].
Qed.

Lemma X3_witness :
  exists v,
    Net_init 2 "1.2.3.4/24" default_flags = Ret v
    /\ bytes_ok (raw v)
    /\ (forall m, mask v = Some m -> bytes_ok (raw m))
    /\ (forall r, masked v = Some r -> bytes_ok (raw r)).
Proof.
  eexists. split; [vm_compute; reflexivity |].
  apply (X3_raw_is_four_bytes 2 "1.2.3.4/24" default_flags).
  vm_compute. reflexivity.
Defined.

(** X4: a specification with a dot and without a slash is handed to
    [socket.inet_aton] as it is; when that accepts it the construction
    succeeds with those bytes, no mask and the four renderings of the
    bytes, and when it refuses the construction fails with the same
    exception. *)
Theorem X4_dotted_goes_to_inet_aton (fuel : nat) (net : string) (fl : flags) :
  contains "/" net = false -> contains "." net = true ->
  Net_init (S fuel) net fl
  = match socket_inet_aton net with
    | Ret rw => Ret (mkNet net None None rw (rendering rw fl))
    | Raise cls msg => Raise cls msg
    | OutOfFuel => OutOfFuel
    end.
Proof.
  intros Hs Hd. rewrite (Net_init_base fuel net fl net).
  - destruct (socket_inet_aton net); reflexivity.
  - unfold dispatch. now rewrite Hs, Hd.
Qed.

Lemma X4_witness :
  Net_init 1 "10.1" default_flags
  = match socket_inet_aton "10.1" with
    | Ret rw => Ret (mkNet "10.1" None None rw (rendering rw default_flags))
    | Raise cls msg => Raise cls msg
    | OutOfFuel => OutOfFuel
    end.
Proof. apply (X4_dotted_goes_to_inet_aton 0 "10.1" default_flags); reflexivity. Defined.



(** X6: in a specification with one slash the mask is constructed first:
    when the mask specification is refused, the whole construction fails
    with that very exception, whatever the base address is. *)
Theorem X6_mask_error_comes_first (fuel : nat) (net base maskSpec : string)
        (fl : flags) (cls : exn_class) (msg : string) :
  count "/" net = 1%nat -> split "/" net = [base; maskSpec] ->
  Net_init (S fuel) maskSpec fl = Raise cls msg ->
  Net_init (S (S fuel)) net fl = Raise cls msg.
Proof.
  intros Hc Hs Hm.
  destruct (Net_init_slash fuel net fl Hc) as (b & m & Hs' & _ & _ & _ & Heq).
  rewrite Hs in Hs'. injection Hs' as <- <-.
  rewrite Heq, Hm. reflexivity.
Qed.

Lemma X6_witness :
  Net_init 2 "999.1.1.1/zz" default_flags
  = Raise ValueError ("Invalid CIDR block (invalid numeric value): " ++ "zz").
Proof.
  apply (X6_mask_error_comes_first 0 "999.1.1.1/zz" "999.1.1.1" "zz" default_flags);
    reflexivity.
Defined.

(** X7: a specification whose single slash is its last character (an empty
    mask) always fails with [OSError], and one whose single slash is its
    first character (an empty base address) never constructs. *)
Theorem X7_empty_side_of_slash (fuel : nat) (s : string) (fl : flags) :
  contains "/" s = false ->
  raises (Net_init (S (S fuel)) (s ++ "/") fl) OSError
  /\ (forall v, Net_init (S (S fuel)) ("/" ++ s) fl <> Ret v).
Proof.
  intros Hs. pose proof (proj1 (contains_false_count "/" s) Hs) as Hc0.
  split.
  - assert (Hc : count "/" (s ++ "/") = 1%nat).
    { rewrite count_append, Hc0. reflexivity. }
    destruct (Net_init_slash fuel _ fl Hc) as (b & m & Hsp & _ & _ & _ & Heq).
    rewrite (split_cons "/" s "" Hs) in Hsp. cbn [split] in Hsp.
    injection Hsp as <- <-. rewrite Heq.
    eexists. reflexivity.
  - assert (Hc : count "/" ("/" ++ s) = 1%nat).
    { cbn. now rewrite Hc0. }
    destruct (Net_init_slash fuel _ fl Hc) as (b & m & Hsp & _ & _ & _ & Heq).
    cbn [append split Ascii.eqb Bool.eqb] in Hsp.
    rewrite (split_none "/" s Hs) in Hsp. injection Hsp as <- <-.
    intros v Hv. rewrite Heq in Hv.
    destruct (Net_init (S fuel) s fl) as [msk | |]; discriminate.
Qed.

Lemma X7_witness :
  raises (Net_init 2 ("1.2.3.4" ++ "/") default_flags) OSError
  /\ (forall v, Net_init 2 ("/" ++ "1.2.3.4") default_flags <> Ret v).
Proof. apply (X7_empty_side_of_slash 0 "1.2.3.4" default_flags). reflexivity. Defined.

(** ** The renderings of a constructed Net *)

Lemma byte_widths (b : Z) :
  0 <= b < 256 ->
  String.length (rjust 3 " " (py_str b)) = 3%nat
  /\ String.length (format_int 8 2 b) = 8%nat
  /\ contains " " (format_int 8 2 b) = false
  /\ py_int_base 2 (format_int 8 2 b) = Some b.
Proof.
  intros Hb.
  pose proof (forall_byte
    (fun b => (String.length (rjust 3 " " (py_str b)) =? 3)%nat
              && (String.length (format_int 8 2 b) =? 8)%nat
              && negb (contains " " (format_int 8 2 b))
              && match py_int_base 2 (format_int 8 2 b) with
                 | Some v => v =? b
                 | None => false
                 end) ltac:(vm_compute; reflexivity) b Hb) as H.
  cbv beta in H. do 3 (apply andb_prop in H; destruct H as [H ?]).
  split; [now apply Nat.eqb_eq |]. split; [now apply Nat.eqb_eq |].
  split; [now apply negb_true_iff |].
  destruct (py_int_base 2 _) as [v |]; [| discriminate].
  f_equal. now apply Z.eqb_eq.
Qed.

Lemma length_join4 (sep a b c d : string) :
  String.length (join sep [a; b; c; d])
  = (String.length a + String.length b + String.length c + String.length d
     + 3 * String.length sep)%nat.
Proof. cbn [join]. rewrite !length_append. lia. Qed.

Lemma be_bytes_be_value (a b c d : Z) :
  0 <= a < 256 -> 0 <= b < 256 -> 0 <= c < 256 -> 0 <= d < 256 ->
  be_bytes (be_value [a; b; c; d]) = [a; b; c; d].
Proof.
  intros Ha Hb Hc Hd. unfold be_value, be_bytes. cbn [nth].
  change 255 with (Z.ones 8). rewrite !Z.land_ones by lia.
  rewrite !Z.shiftr_div_pow2 by lia.
  change (2 ^ 8) with 256. change (2 ^ 24) with 16777216.
  change (2 ^ 16) with 65536. change (256 ^ 3) with 16777216.
  change (256 ^ 2) with 65536. change (256 ^ 1) with 256. change (256 ^ 0) with 1.
  repeat f_equal; Z.to_euclidean_division_equations; lia.
Qed.

Lemma rendering_widths (rw : list Z) (fl : flags) :
  bytes_ok rw ->
  String.length (as_string (f_quad (rendering rw fl))) = 15%nat
  /\ String.length (as_string (f_bin (rendering rw fl))) = 35%nat
  /\ String.length (as_string (f_dec (rendering rw fl))) = 10%nat
  /\ String.length (as_string (f_hex (rendering rw fl))) = 8%nat.
Proof.
  intros Hok. apply bytes_ok_4 in Hok.
  destruct Hok as (a & b & c & d & -> & Ha & Hb & Hc & Hd).
  destruct (byte_widths a Ha) as (Ha3 & Ha8 & _).
  destruct (byte_widths b Hb) as (Hb3 & Hb8 & _).
  destruct (byte_widths c Hc) as (Hc3 & Hc8 & _).
  destruct (byte_widths d Hd) as (Hd3 & Hd8 & _).
  pose proof (be_value_bounds a b c d Ha Hb Hc Hd) as Hv.
  cbn [rendering f_quad f_bin f_dec f_hex as_string map].
  rewrite !length_join4, Ha3, Hb3, Hc3, Hd3, Ha8, Hb8, Hc8, Hd8.
  split; [reflexivity |]. split; [reflexivity |].
  split; apply format_int_length; lia.
Qed.

Lemma Net_init_formats (fuel : nat) (net : string) (fl : flags) (v : Net) :
  Net_init fuel net fl = Ret v ->
  bytes_ok (raw v) /\ formats v = rendering (raw v) fl
  /\ (forall m, mask v = Some m ->
                bytes_ok (raw m) /\ formats m = rendering (raw m) fl)
  /\ (forall r, masked v = Some r ->
                bytes_ok (raw r) /\ formats r = rendering (raw r) fl).
Proof.
  intros Hv.
  destruct (Net_init_shape fuel net fl v Hv) as (rw & Hok & [[_ ->] | [_ H]]).
  - cbn [raw formats mask masked]. split; [exact Hok |]. split; [reflexivity |].
    split; intros x Hx; discriminate.
  - destruct H as (ms & rwm & Hokm & ->). cbn [raw formats mask masked].
    split; [exact Hok |]. split; [reflexivity |].
    split; intros x Hx; injection Hx as <-; cbn [raw formats];
      (split; [| reflexivity]); [exact Hokm | now apply map2_land_ok].
Qed.

Lemma hex_rendering_length (fuel : nat) (net : string) (fl : flags) (v : Net) :
  Net_init fuel net fl = Ret v -> String.length (text_of v hex) = 8%nat.
Proof.
  intros Hv. destruct (Net_init_formats fuel net fl v Hv) as (Hok & Hf & _).
  unfold text_of. cbn [get_fmt]. rewrite Hf. now apply rendering_widths.
Qed.

(** X8: in every [Net] the constructor returns the four renderings have
    fixed widths: 15 characters for the quad, 35 for the binary octets, 10
    for the decimal and 8 for the hexadecimal rendering. *)
Theorem X8_rendering_widths (fuel : nat) (net : string) (fl : flags) (v : Net) :
  Net_init fuel net fl = Ret v ->
  String.length (text_of v quad) = 15%nat
  /\ String.length (text_of v bin) = 35%nat
  /\ String.length (text_of v dec) = 10%nat
  /\ String.length (text_of v hex) = 8%nat.
Proof.
  intros Hv. destruct (Net_init_formats fuel net fl v Hv) as (Hok & Hf & _).
  unfold text_of. cbn [get_fmt]. rewrite Hf. now apply rendering_widths.
Qed.

Lemma X8_witness :
  exists v,
    Net_init 1 "ff" default_flags = Ret v
    /\ String.length (text_of v quad) = 15%nat
    /\ String.length (text_of v bin) = 35%nat
    /\ String.length (text_of v dec) = 10%nat
    /\ String.length (text_of v hex) = 8%nat.
Proof.
  eexists. split; [vm_compute; reflexivity |].
  apply (X8_rendering_widths 1 "ff" default_flags). vm_compute. reflexivity.
Defined.

Lemma primary_line_length (o1 o2 : string) (m1 r1 m2 r2 : option Net)
      (rw1 rw2 : list Z) (fl : flags) :
  bytes_ok rw1 -> bytes_ok rw2 ->
  String.length (primary_line (mkNet o1 m1 r1 rw1 (rendering rw1 fl)))
  = String.length (primary_line (mkNet o2 m2 r2 rw2 (rendering rw2 fl))).
Proof.
  intros H1 H2.
  destruct (rendering_widths rw1 fl H1) as (Hq1 & Hb1 & Hd1 & Hh1).
  destruct (rendering_widths rw2 fl H2) as (Hq2 & Hb2 & Hd2 & Hh2).
  unfold primary_line. cbn [formats get_fmt filter].
  destruct fl as [[] [] [] []];
    cbn [rendering show f_quad f_bin f_dec f_hex show_quad show_bin show_dec show_hex
         filter map join get_fmt] in *;
    rewrite ?length_append; cbn [as_string] in *; congruence.
Qed.

(** X9: the three rows of the display of a masked address line up: the
    primary lines of the value, of its mask and of its masked address have
    the same length, whichever renderings are shown. *)
Theorem X9_rows_align (fuel : nat) (net : string) (fl : flags) (v m r : Net) :
  Net_init fuel net fl = Ret v -> mask v = Some m -> masked v = Some r ->
  String.length (primary_line v) = String.length (primary_line m)
  /\ String.length (primary_line m) = String.length (primary_line r).
Proof.
  intros Hv Hm Hr.
  destruct (Net_init_formats fuel net fl v Hv) as (Hok & Hf & Hmk & Hmd).
  destruct (Hmk m Hm) as (Hokm & Hfm). destruct (Hmd r Hr) as (Hokr & Hfr).
  destruct v as [ov mv rv rwv fv]. destruct m as [om mm rm rwm fm].
  destruct r as [or mr rr rwr fr]. cbn [raw formats] in *. subst fv fm fr.
  split; now apply primary_line_length.
Qed.

Lemma X9_witness :
  exists v m r,
    Net_init 2 "1.2.3.4/24" (mkFlags true false true false) = Ret v
    /\ mask v = Some m /\ masked v = Some r
    /\ String.length (primary_line v) = String.length (primary_line m)
    /\ String.length (primary_line m) = String.length (primary_line r).
Proof.
  eexists. eexists. eexists.
  split; [vm_compute; reflexivity |].
  split; [reflexivity |]. split; [reflexivity |].
  apply (X9_rows_align 2 "1.2.3.4/24" (mkFlags true false true false));
    vm_compute; reflexivity.
Defined.

(** X10: in every [Net] the constructor returns, the decimal rendering is
    read back by [int] as the big-endian value of the raw bytes, the
    hexadecimal rendering consists of lower-case digits with that same
    value, and the four bytes of that value are the raw bytes again. *)
Theorem X10_decimal_hex_round_trip (fuel : nat) (net : string) (fl : flags) (v : Net) :
  Net_init fuel net fl = Ret v ->
  py_int (text_of v dec) = Some (be_value (raw v))
  /\ forall_chars is_lower_hex (text_of v hex) = true
  /\ digits_value 16 0 (text_of v hex) = be_value (raw v)
  /\ be_bytes (be_value (raw v)) = raw v.
Proof.
  intros Hv. destruct (Net_init_formats fuel net fl v Hv) as (Hok & Hf & _).
  unfold text_of. cbn [get_fmt]. rewrite Hf. cbn [rendering f_dec f_hex as_string].
  apply bytes_ok_4 in Hok. destruct Hok as (a & b & c & d & -> & Ha & Hb & Hc & Hd).
  pose proof (be_value_bounds a b c d Ha Hb Hc Hd) as Hb32.
  split; [apply py_int_format; lia |].
  split; [apply format_int_lower_hex; lia |].
  split; [apply (format_int_digits 8 16); lia |].
  now apply be_bytes_be_value.
Qed.

Lemma X10_witness :
  exists v,
    Net_init 1 "256" default_flags = Ret v
    /\ py_int (text_of v dec) = Some (be_value (raw v))
    /\ forall_chars is_lower_hex (text_of v hex) = true
    /\ digits_value 16 0 (text_of v hex) = be_value (raw v)
    /\ be_bytes (be_value (raw v)) = raw v.
Proof.
  eexists. split; [vm_compute; reflexivity |].
  apply (X10_decimal_hex_round_trip 1 "256" default_flags). vm_compute. reflexivity.
Defined.

(** X11: the quad and the binary renderings determine the raw bytes: the
    fields of the quad rendering between its dots are read by [int] as the
    four bytes, and the fields of the binary rendering between its spaces
    are read by [int] in base 2 as the four bytes. *)
Theorem X11_quad_bin_round_trip (fuel : nat) (net : string) (fl : flags) (v : Net) :
  Net_init fuel net fl = Ret v ->
  map py_int (split "." (text_of v quad)) = map Some (raw v)
  /\ map (py_int_base 2) (split " " (text_of v bin)) = map Some (raw v).
Proof.
  intros Hv. destruct (Net_init_formats fuel net fl v Hv) as (Hok & Hf & _).
  unfold text_of. cbn [get_fmt]. rewrite Hf. cbn [rendering f_quad f_bin as_string].
  apply bytes_ok_4 in Hok. destruct Hok as (a & b & c & d & -> & Ha & Hb & Hc & Hd).
  destruct (byte_text a Ha) as (_ & _ & _ & Ha2 & Ha3).
  destruct (byte_text b Hb) as (_ & _ & _ & Hb2 & Hb3).
  destruct (byte_text c Hc) as (_ & _ & _ & Hc2 & Hc3).
  destruct (byte_text d Hd) as (_ & _ & _ & Hd2 & Hd3).
  destruct (byte_widths a Ha) as (_ & _ & Ha4 & Ha5).
  destruct (byte_widths b Hb) as (_ & _ & Hb4 & Hb5).
  destruct (byte_widths c Hc) as (_ & _ & Hc4 & Hc5).
  destruct (byte_widths d Hd) as (_ & _ & Hd4 & Hd5).
  cbn [map]. rewrite (split_join4 "." _ _ _ _ Ha2 Hb2 Hc2 Hd2).
  rewrite (split_join4 " " _ _ _ _ Ha4 Hb4 Hc4 Hd4).
  cbn [map]. unfold py_int in *. now rewrite Ha3, Hb3, Hc3, Hd3, Ha5, Hb5, Hc5, Hd5.
Qed.

Lemma X11_witness :
  exists v,
    Net_init 1 "10.0.0.1" default_flags = Ret v
    /\ map py_int (split "." (text_of v quad)) = map Some (raw v)
    /\ map (py_int_base 2) (split " " (text_of v bin)) = map Some (raw v).
Proof.
  eexists. split; [vm_compute; reflexivity |].
  apply (X11_quad_bin_round_trip 1 "10.0.0.1" default_flags). vm_compute. reflexivity.
Defined.

(** ** Reading renderings back *)

(** X12: the constructor reproduces a [Net] from its dotted text: for every
    [Net] it returned, constructing again from [socket.inet_ntoa] of its raw
    bytes with the same flags succeeds, without a mask, with the same raw
    bytes and the same four renderings. *)
Theorem X12_rebuild_from_dotted_text (fuel fuel' : nat) (net : string) (fl : flags)
        (v : Net) :
  Net_init fuel net fl = Ret v ->
  socket_inet_ntoa (raw v) = Ret (join "." (map py_str (raw v)))
  /\ Net_init (S fuel') (join "." (map py_str (raw v))) fl
     = Ret (mkNet (join "." (map py_str (raw v))) None None (raw v) (formats v)).
Proof.
  intros Hv. destruct (Net_init_formats fuel net fl v Hv) as (Hok & Hf & _).
  rewrite Hf. split.
  - unfold socket_inet_ntoa. now rewrite (proj1 Hok).
  - apply bytes_ok_4 in Hok. destruct Hok as (a & b & c & d & -> & Ha & Hb & Hc & Hd).
    now apply Net_init_text.
Qed.

Lemma X12_witness :
  exists v,
    Net_init 1 "ff" default_flags = Ret v
    /\ socket_inet_ntoa (raw v) = Ret (join "." (map py_str (raw v)))
    /\ Net_init 1 (join "." (map py_str (raw v))) default_flags
       = Ret (mkNet (join "." (map py_str (raw v))) None None (raw v) (formats v)).
Proof.
  eexists. split; [vm_compute; reflexivity |].
  apply (X12_rebuild_from_dotted_text 1 0 "ff" default_flags). vm_compute. reflexivity.
Defined.

Lemma Net_init_hex (fuel : nat) (s : string) (fl : flags) :
  forall_chars is_hex s = true -> forall_chars is_digit s = false ->
  (String.length s <= 8)%nat ->
  Net_init (S fuel) s fl
  = Ret (mkNet s None None (be_bytes (digits_value 16 0 s))
               (rendering (be_bytes (digits_value 16 0 s)) fl)).
Proof.
  intros Hh Hd Hlen.
  assert (Hne : s <> "") by (intros ->; discriminate).
  rewrite (Net_init_base fuel s fl ("0x" ++ s)) by (now apply dispatch_hex).
  unfold socket_inet_aton.
  replace (contains nul ("0x" ++ s)) with false
    by (symmetry; cbn; now apply hex_no_nul).
  now rewrite (inet_aton_hex s Hh Hne Hlen).
Qed.

Lemma lower_hex_is_hex (c : ascii) : is_lower_hex c = true -> is_hex c = true.
Proof.
  unfold is_lower_hex, is_hex. intros H. apply orb_prop in H.
  destruct H as [-> | ->]; [reflexivity | apply orb_true_iff; left; apply orb_true_r].
Qed.

(** X13: the hexadecimal rendering of a constructed [Net] is itself a
    specification of the same address whenever it holds a letter: the
    constructor then reads it back to the same raw bytes. (A rendering made
    of decimal digits only is taken as a decimal token instead.) *)
Theorem X13_hex_rendering_reads_back (fuel fuel' : nat) (net : string)
        (fl fl' : flags) (v : Net) :
  Net_init fuel net fl = Ret v ->
  forall_chars is_digit (text_of v hex) = false ->
  exists w, Net_init (S fuel') (text_of v hex) fl' = Ret w /\ raw w = raw v.
Proof.
  intros Hv Hnd.
  pose proof (hex_rendering_length fuel net fl v Hv) as Hlen.
  destruct (Net_init_formats fuel net fl v Hv) as (Hok & Hf & _).
  assert (Hx : forall_chars is_lower_hex (text_of v hex) = true
               /\ digits_value 16 0 (text_of v hex) = be_value (raw v)
               /\ be_bytes (be_value (raw v)) = raw v).
  { unfold text_of. cbn [get_fmt]. rewrite Hf. cbn [rendering f_hex as_string].
    apply bytes_ok_4 in Hok. destruct Hok as (a & b & c & d & -> & Ha & Hb & Hc & Hd).
    pose proof (be_value_bounds a b c d Ha Hb Hc Hd) as Hb32.
    split; [apply format_int_lower_hex; lia |].
    split; [apply (format_int_digits 8 16); lia | now apply be_bytes_be_value]. }
  destruct Hx as (Hlow & Hval & Hback).
  eexists. split.
  - apply Net_init_hex; [| exact Hnd | lia].
    exact (forall_chars_impl _ _ _ lower_hex_is_hex Hlow).
  - cbn [raw]. now rewrite Hval.
Qed.

Lemma X13_witness :
  exists w,
    Net_init 1 (text_of net_mask_24 hex) default_flags = Ret w
    /\ raw w = raw net_mask_24.
Proof.
  apply (X13_hex_rendering_reads_back 1 0 "24" default_flags default_flags net_mask_24);
    vm_compute; reflexivity.
Defined.

(** ** The algebra of the mask application *)

Lemma land_split (k hi lo hi' lo' : Z) :
  0 <= k -> 0 <= lo < 2 ^ k -> 0 <= lo' < 2 ^ k ->
  Z.land (hi * 2 ^ k + lo) (hi' * 2 ^ k + lo')
  = Z.land hi hi' * 2 ^ k + Z.land lo lo'.
Proof.
  intros Hk Hlo Hlo'.
  assert (Hbit : forall h l i, 0 <= l < 2 ^ k -> 0 <= i ->
             Z.testbit (h * 2 ^ k + l) i
             = if i <? k then Z.testbit l i else Z.testbit h (i - k)).
  { intros h l i Hlr Hi. destruct (Z.ltb_spec i k).
    - rewrite <- (Z.mod_pow2_bits_low (h * 2 ^ k + l) k i) by lia.
      f_equal. rewrite Z.add_comm, Z.mod_add by lia. apply Z.mod_small. lia.
    - replace i with ((i - k) + k) at 1 by lia.
      rewrite <- Z.div_pow2_bits by lia.
      f_equal. rewrite Z.add_comm, Z.div_add by lia.
      rewrite Z.div_small by lia. reflexivity. }
  assert (Hl : 0 <= Z.land lo lo' < 2 ^ k).
  { split; [apply Z.land_nonneg; lia |].
    destruct (Z.eq_dec (Z.land lo lo') 0) as [-> | Hz]; [lia |].
    pose proof (proj2 (Z.land_nonneg lo lo') (or_introl (proj1 Hlo))) as Hnn.
    apply Z.log2_lt_pow2; [lia |].
    destruct (Z.eq_dec lo 0) as [-> | Hlz]; [rewrite Z.land_0_l in Hz; lia |].
    pose proof (Z.log2_land lo lo' ltac:(lia) ltac:(lia)) as Hlog.
    assert (Z.log2 lo < k) by (apply Z.log2_lt_pow2; lia).
    lia. }
  apply Z.bits_inj'. intros i Hi.
  rewrite Z.land_spec, !Hbit by assumption.
  destruct (i <? k); now rewrite Z.land_spec.
Qed.

Lemma be_value_horner (a b c d : Z) :
  be_value [a; b; c; d] = ((a * 2 ^ 8 + b) * 2 ^ 8 + c) * 2 ^ 8 + d.
Proof. unfold be_value. cbn [nth]. lia. Qed.

(** The byte-wise AND of two addresses is the AND of their 32-bit values. *)
Lemma be_value_land (l1 l2 : list Z) :
  bytes_ok l1 -> bytes_ok l2 ->
  be_value (map2 Z.land l1 l2) = Z.land (be_value l1) (be_value l2).
Proof.
  intros H1 H2.
  apply bytes_ok_4 in H1. destruct H1 as (a0 & a1 & a2 & a3 & -> & ? & ? & ? & ?).
  apply bytes_ok_4 in H2. destruct H2 as (b0 & b1 & b2 & b3 & -> & ? & ? & ? & ?).
  cbn [map2]. rewrite !be_value_horner.
  change (2 ^ 8) with 256 in *.
  change 256 with (2 ^ 8).
  rewrite !land_split by (change (2 ^ 8) with 256; lia). reflexivity.
Qed.

Lemma map2_land_assoc (l1 l2 l3 : list Z) :
  map2 Z.land (map2 Z.land l1 l2) l3 = map2 Z.land l1 (map2 Z.land l2 l3).
Proof.
  revert l2 l3. induction l1 as [| a l1 IH]; intros [| b l2] [| c l3];
    cbn [map2]; try reflexivity.
  now rewrite Z.land_assoc, IH.
Qed.

(** X14: applying a mask twice changes nothing: for values with well-formed
    bytes, [(A & M) & M] succeeds and has the raw bytes of [A & M]. *)
Theorem X14_mask_absorbed (fuel : nat) (A M : Net) :
  bytes_ok (raw A) -> bytes_ok (raw M) ->
  exists r1 r2,
    Net_and (S fuel) A M = Ret r1 /\ Net_and (S fuel) r1 M = Ret r2
    /\ raw r2 = raw r1.
Proof.
  intros HA HM. eexists. eexists.
  split; [apply (Net_and_spec fuel A M HA HM) |].
  split; [apply Net_and_spec; [now apply map2_land_ok | exact HM] |].
  cbn [raw]. rewrite map2_land_assoc, map2_land_diag. reflexivity.
Qed.

Lemma X14_witness :
  exists r1 r2,
    Net_and 1 net_1_2_3_4 net_mask_24 = Ret r1 /\ Net_and 1 r1 net_mask_24 = Ret r2
    /\ raw r2 = raw r1.
Proof.
  apply (X14_mask_absorbed 0 net_1_2_3_4 net_mask_24);
    (split; [reflexivity | repeat (apply Forall_cons; [lia |]); apply Forall_nil]).
Defined.

(** X15: the mask application is associative on raw bytes: for values with
    well-formed bytes, [(A & B) & C] and [A & (B & C)] both succeed with the
    same raw bytes and with the display flags of [A]. *)
Theorem X15_and_associative (fuel : nat) (A B C : Net) :
  bytes_ok (raw A) -> bytes_ok (raw B) -> bytes_ok (raw C) ->
  exists ab ab_c bc a_bc,
    Net_and (S fuel) A B = Ret ab /\ Net_and (S fuel) ab C = Ret ab_c
    /\ Net_and (S fuel) B C = Ret bc /\ Net_and (S fuel) A bc = Ret a_bc
    /\ raw ab_c = raw a_bc /\ shows ab_c = shows A /\ shows a_bc = shows A.
Proof.
  intros HA HB HC. eexists. eexists. eexists. eexists.
  split; [apply (Net_and_spec fuel A B HA HB) |].
  split; [apply Net_and_spec; [now apply map2_land_ok | exact HC] |].
  split; [apply (Net_and_spec fuel B C HB HC) |].
  split; [apply Net_and_spec; [exact HA | now apply map2_land_ok] |].
  cbn [raw]. split; [apply map2_land_assoc |].
  rewrite !shows_rendering. split; reflexivity.
Qed.

Lemma X15_witness :
  exists ab ab_c bc a_bc,
    Net_and 1 net_1_2_3_4 net_mask_24 = Ret ab
    /\ Net_and 1 ab net_1_2_3_4 = Ret ab_c
    /\ Net_and 1 net_mask_24 net_1_2_3_4 = Ret bc
    /\ Net_and 1 net_1_2_3_4 bc = Ret a_bc
    /\ raw ab_c = raw a_bc /\ shows ab_c = shows net_1_2_3_4
    /\ shows a_bc = shows net_1_2_3_4.
Proof.
  apply (X15_and_associative 0 net_1_2_3_4 net_mask_24 net_1_2_3_4);
    (split; [reflexivity | repeat (apply Forall_cons; [lia |]); apply Forall_nil]).
Defined.

(** X16: the byte-wise mask application is the AND of the 32-bit values:
    for values with well-formed bytes, the big-endian value of [A & B] is
    the bitwise AND of the big-endian values of [A] and [B]. *)
Theorem X16_and_of_values (fuel : nat) (A B : Net) :
  bytes_ok (raw A) -> bytes_ok (raw B) ->
  exists r,
    Net_and (S fuel) A B = Ret r
    /\ be_value (raw r) = Z.land (be_value (raw A)) (be_value (raw B)).
Proof.
  intros HA HB. eexists. split; [apply (Net_and_spec fuel A B HA HB) |].
  cbn [raw]. now apply be_value_land.
Qed.

Lemma X16_witness :
  exists r,
    Net_and 1 net_1_2_3_4 net_mask_24 = Ret r
    /\ be_value (raw r)
       = Z.land (be_value (raw net_1_2_3_4)) (be_value (raw net_mask_24)).
Proof.
  apply (X16_and_of_values 0 net_1_2_3_4 net_mask_24);
    (split; [reflexivity | repeat (apply Forall_cons; [lia |]); apply Forall_nil]).
Defined.

(** ** CIDR blocks *)

(** The [Net] of [X/m] when [X] is an address and [m] a mask
    specification without a slash. *)
Lemma Net_init_cidr (fuel : nat) (X m : string) (rawX rwm : list Z) (fl : flags) :
  contains "/" X = false -> contains "/" m = false ->
  socket_inet_aton X = Ret rawX ->
  Net_init (S fuel) m fl = Ret (mkNet m None None rwm (rendering rwm fl)) ->
  Net_init (S (S fuel)) (X ++ "/" ++ m) fl
  = Ret (mkNet (X ++ "/" ++ m)
               (Some (mkNet m None None rwm (rendering rwm fl)))
               (Some (mkNet (join "." (map py_str (map2 Z.land rawX rwm))) None None
                            (map2 Z.land rawX rwm)
                            (rendering (map2 Z.land rawX rwm) fl)))
               rawX (rendering rawX fl)).
Proof.
  intros HX Hm Hraw Hmask.
  assert (Hcount : count "/" (X ++ "/" ++ m) = 1%nat).
  { rewrite count_append. cbn [append count Ascii.eqb Bool.eqb].
    apply contains_false_count in HX. apply contains_false_count in Hm.
    rewrite HX, Hm. reflexivity. }
  destruct (Net_init_slash fuel _ fl Hcount) as (b & m' & Hs & _ & _ & _ & Heq).
  change (X ++ "/" ++ m) with (X ++ String "/" m) in Hs.
  rewrite (split_cons "/" X _ HX), (split_none "/" _ Hm) in Hs.
  injection Hs as <- <-.
  rewrite Heq, Hmask, bind_Ret, Hraw, bind_Ret.
  pose proof (socket_inet_aton_ok X rawX Hraw) as HokX.
  pose proof (Net_init_bytes_ok _ _ _ _ Hmask) as Hokm. cbn [raw] in Hokm.
  rewrite Net_and_spec by assumption. rewrite bind_Ret, shows_rendering.
  reflexivity.
Qed.

(** X17: the masked address of [X/N] is the network address: for an
    address text [X] that [socket.inet_aton] accepts and a mask length [N]
    in 1..32, the value of the masked address is the value of [X] AND
    [2^32 - 2^(32-N)]; its upper [N] bits are those of [X] and its lower
    [32-N] bits are zero. *)
Theorem X17_network_address (fuel : nat) (X : string) (rawX : list Z) (N : Z)
        (fl : flags) :
  contains "/" X = false -> socket_inet_aton X = Ret rawX -> 1 <= N <= 32 ->
  exists v r,
    Net_init (S (S fuel)) (X ++ "/" ++ py_str N) fl = Ret v
    /\ masked v = Some r
    /\ be_value (raw r) = Z.land (be_value rawX) (2 ^ 32 - 2 ^ (32 - N))
    /\ forall i, 0 <= i < 32 ->
                 Z.testbit (be_value (raw r)) i
                 = Z.testbit (be_value rawX) i && (32 - N <=? i).
Proof.
  intros HX Hraw HN.
  destruct (masklen_text N HN) as (Hd & Hne & Hlen & Hval).
  destruct (digits_no_slash_dot _ (forall_chars_impl _ _ _ is_digit_is_hex Hd))
    as [HNslash _].
  pose proof (Net_init_masklen fuel (py_str N) fl Hd Hne Hlen) as Hmask.
  rewrite Hval in Hmask. specialize (Hmask HN).
  eexists. eexists.
  split; [apply (Net_init_cidr fuel X (py_str N) rawX _ fl HX HNslash Hraw Hmask) |].
  cbn [masked]. split; [reflexivity |]. cbn [raw].
  destruct (masklen_facts N HN) as (_ & _ & Hbe & Hbits).
  assert (Hland : be_value (map2 Z.land rawX (be_bytes (2 ^ 32 - 2 ^ (32 - N))))
                  = Z.land (be_value rawX) (2 ^ 32 - 2 ^ (32 - N))).
  { rewrite be_value_land;
      [now rewrite Hbe | exact (socket_inet_aton_ok X rawX Hraw) | apply be_bytes_ok]. }
  split; [exact Hland |].
  intros i Hi. rewrite Hland, Z.land_spec. f_equal.
  pose proof (forall_bit32 _ Hbits i Hi) as Hb. cbv beta in Hb.
  now apply Bool.eqb_prop in Hb.
Qed.

Lemma X17_witness :
  exists v r,
    Net_init 2 ("1.2.3.4" ++ "/" ++ py_str 24) default_flags = Ret v
    /\ masked v = Some r
    /\ be_value (raw r) = Z.land (be_value [1; 2; 3; 4]) (2 ^ 32 - 2 ^ (32 - 24))
    /\ forall i, 0 <= i < 32 ->
                 Z.testbit (be_value (raw r)) i
                 = Z.testbit (be_value [1; 2; 3; 4]) i && (32 - 24 <=? i).
Proof.
  apply (X17_network_address 0 "1.2.3.4" [1; 2; 3; 4] 24 default_flags);
    [reflexivity | vm_compute; reflexivity | lia].
Defined.

(** X18: a mask length and the dotted netmask it stands for are
    interchangeable: for an address text [X] that [socket.inet_aton]
    accepts and [N] in 1..32, [X/N] and [X/a.b.c.d], where [a.b.c.d] is the
    dotted text of [2^32 - 2^(32-N)], are constructed with the same raw
    bytes, the same mask bytes and the same masked address. *)
Theorem X18_length_or_dotted_mask (fuel : nat) (X : string) (rawX : list Z) (N : Z)
        (fl : flags) :
  contains "/" X = false -> socket_inet_aton X = Ret rawX -> 1 <= N <= 32 ->
  exists v w m m',
    Net_init (S (S fuel)) (X ++ "/" ++ py_str N) fl = Ret v
    /\ Net_init (S (S fuel))
                (X ++ "/" ++ join "." (map py_str (be_bytes (2 ^ 32 - 2 ^ (32 - N))))) fl
       = Ret w
    /\ raw v = raw w
    /\ mask v = Some m /\ mask w = Some m' /\ raw m = raw m'
    /\ masked v = masked w.
Proof.
  intros HX Hraw HN.
  destruct (masklen_text N HN) as (Hd & Hne & Hlen & Hval).
  destruct (digits_no_slash_dot _ (forall_chars_impl _ _ _ is_digit_is_hex Hd))
    as [HNslash _].
  pose proof (Net_init_masklen fuel (py_str N) fl Hd Hne Hlen) as Hmask.
  rewrite Hval in Hmask. specialize (Hmask HN).
  pose proof (be_bytes_ok (2 ^ 32 - 2 ^ (32 - N))) as Hok.
  remember (be_bytes (2 ^ 32 - 2 ^ (32 - N))) as mb eqn:Hmb. clear Hmb.
  apply bytes_ok_4 in Hok. destruct Hok as (a & b & c & d & -> & Ha & Hb & Hc & Hdd).
  destruct (dispatch_text (Net_init fuel) a b c d fl Ha Hb Hc Hdd) as (_ & Hslash & _).
  pose proof (Net_init_text fuel a b c d fl Ha Hb Hc Hdd) as Hquad.
  eexists. eexists. eexists. eexists.
  split; [apply (Net_init_cidr fuel X (py_str N) rawX _ fl HX HNslash Hraw Hmask) |].
  split; [apply (Net_init_cidr fuel X _ rawX _ fl HX Hslash Hraw Hquad) |].
  cbn [raw mask masked]. repeat split; reflexivity.
Qed.

Lemma X18_witness :
  exists v w m m',
    Net_init 2 ("1.2.3.4" ++ "/" ++ py_str 24) default_flags = Ret v
    /\ Net_init 2 ("1.2.3.4" ++ "/"
                   ++ join "." (map py_str (be_bytes (2 ^ 32 - 2 ^ (32 - 24)))))
                default_flags
       = Ret w
    /\ raw v = raw w
    /\ mask v = Some m /\ mask w = Some m' /\ raw m = raw m'
    /\ masked v = masked w.
Proof.
  apply (X18_length_or_dotted_mask 0 "1.2.3.4" [1; 2; 3; 4] 24 default_flags);
    [reflexivity | vm_compute; reflexivity | lia].
Defined.

(** ** The command-line driver *)

Lemma for_each_extends (body : string -> list string -> list string * outcome unit) :
  (forall x out, body x out = ((out ++ fst (body x []))%list, Ret tt)) ->
  forall items out,
    for_each body items out = ((out ++ fst (for_each body items []))%list, Ret tt).
Proof.
  intros Hbody. induction items as [| x items IH]; intros out.
  - cbn [for_each fst]. now rewrite app_nil_r.
  - pose proof (Hbody x out) as H1. pose proof (Hbody x []) as H2.
    remember (fst (body x [])) as bx eqn:Hbx. clear Hbx.
    cbn [for_each]. rewrite H1, H2. cbn [app].
    rewrite (IH (out ++ bx)%list), (IH bx).
    cbn [fst]. now rewrite app_assoc.
Qed.

Lemma for_each_app (body : string -> list string -> list string * outcome unit) :
  (forall x out, body x out = ((out ++ fst (body x []))%list, Ret tt)) ->
  forall l1 l2,
    fst (for_each body (l1 ++ l2) [])
    = (fst (for_each body l1 []) ++ fst (for_each body l2 []))%list.
Proof.
  intros Hbody. induction l1 as [| x l1 IH]; intros l2.
  - reflexivity.
  - pose proof (Hbody x []) as H2.
    remember (fst (body x [])) as bx eqn:Hbx. clear Hbx.
    cbn [app for_each]. rewrite H2. cbn [app].
    rewrite (for_each_extends body Hbody (l1 ++ l2) bx).
    rewrite (for_each_extends body Hbody l1 bx).
    cbn [fst]. now rewrite IH, app_assoc.
Qed.

Lemma report_extends (fuel : nat) (fl : flags) (net : string) (out : list string) :
  report (S (S fuel)) fl net out
  = ((out ++ fst (report (S (S fuel)) fl net []))%list, Ret tt).
Proof.
  unfold report, print. pose proof (Net_init_caught fuel net fl) as Hc.
  destruct (Net_init (S (S fuel)) net fl) as [v | cls msg |];
    [| destruct cls; try contradiction | contradiction];
    cbn [fst app]; rewrite <- !app_assoc; reflexivity.
Qed.

Lemma cidrs_extends (fuel : nat) (args : cli_args) (cidr : string) (out : list string) :
  for_each (report (S (S fuel)) (cli_flags args)) (cidrs_of args cidr) out
  = ((out ++ fst (for_each (report (S (S fuel)) (cli_flags args))
                           (cidrs_of args cidr) []))%list, Ret tt).
Proof. apply for_each_extends. intros x o. apply report_extends. Qed.

(** X19: the driver never aborts: whatever the arguments, every exception
    of the constructor is caught, the loop over the specifications runs to
    its end, and what was printed before is only extended. *)
Theorem X19_driver_never_aborts (fuel : nat) (args : cli_args) (out : list string) :
  snd (main (S (S fuel)) args out) = Ret tt
  /\ fst (main (S (S fuel)) args out)
     = (out ++ fst (main (S (S fuel)) args []))%list.
Proof.
  unfold main.
  rewrite (for_each_extends _ (cidrs_extends fuel args) (args_addresses args) out).
  split; reflexivity.
Qed.

(** X20: the reports of the positional arguments are independent: what the
    driver prints for a list of addresses is what it prints for a first part
    of the list followed by what it prints for the rest, so a
    specification that fails changes nothing in the reports of the others. *)
Theorem X20_reports_independent (fuel : nat) (a1 a2 : list string)
        (mk : option (list string)) (q b d h : bool) :
  fst (main (S (S fuel)) (mkArgs (a1 ++ a2) mk q b d h) [])
  = (fst (main (S (S fuel)) (mkArgs a1 mk q b d h) [])
     ++ fst (main (S (S fuel)) (mkArgs a2 mk q b d h) []))%list.
Proof.
  unfold main. cbn [args_addresses].
  exact (for_each_app _ (cidrs_extends fuel (mkArgs a1 mk q b d h)) a1 a2).
Qed.

(** X21: what one report consists of: the specification followed by a
    colon, a rule of as many [=] as the specification has characters, then
    either the display string of the [Net] or the line [Error: ] with the
    message of the exception and the line [Skipping], and an empty line. *)
Theorem X21_report_lines (fuel : nat) (fl : flags) (net : string) (out : list string) :
  match Net_init (S (S fuel)) net fl with
  | Ret v =>
      report (S (S fuel)) fl net out
      = ((out ++ [(net ++ " :")%string; replicate (String.length net) "=";
                  Net_str v; ""])%list,
         Ret tt)
  | Raise _ msg =>
      report (S (S fuel)) fl net out
      = ((out ++ [(net ++ " :")%string; replicate (String.length net) "=";
                  ("Error: " ++ msg)%string; "Skipping"; ""])%list,
         Ret tt)
  | OutOfFuel => False
  end.
Proof.
  unfold report, print. pose proof (Net_init_caught fuel net fl) as Hc.
  destruct (Net_init (S (S fuel)) net fl) as [v | cls msg |];
    [| destruct cls; try contradiction | contradiction];
    rewrite <- !app_assoc; reflexivity.
Qed.

Lemma for_each_singletons (body : string -> list string -> list string * outcome unit)
      (items : list string) (out : list string) :
  for_each (fun x o => for_each body [x] o) items out = for_each body items out.
Proof.
  revert out. induction items as [| x items IH]; intros out; [reflexivity |].
  cbn [for_each]. destruct (body x out) as [o [[] | cls msg |]]; [apply IH | |];
    reflexivity.
Qed.

Lemma for_each_one (body : string -> list string -> list string * outcome unit)
      (f : string -> list string) (x : string) (out : list string) :
  for_each (fun c o => for_each body (f c) o) [x] out = for_each body (f x) out.
Proof.
  cbn [for_each].
  destruct (for_each body (f x) out) as [o [[] | cls msg |]]; reflexivity.
Qed.

(** X22: the [--mask] option: a positional argument without a slash is
    reported once for each mask, exactly as if the specifications
    [address/mask] had been given themselves, and a positional argument
    that holds a slash is reported as without the option. *)
Theorem X22_mask_option (fuel : nat) (q b d h : bool) :
  (forall cidr m ms out,
      contains "/" cidr = false ->
      main fuel (mkArgs [cidr] (Some (m :: ms)) q b d h) out
      = main fuel (mkArgs (map (fun mask => cidr ++ "/" ++ mask) (m :: ms)) None q b d h)
             out)
  /\ (forall cidr mk out,
         contains "/" cidr = true ->
         main fuel (mkArgs [cidr] mk q b d h) out
         = main fuel (mkArgs [cidr] None q b d h) out).
Proof.
  split.
  - intros cidr m ms out Hs. unfold main. cbn [args_addresses].
    rewrite for_each_one. unfold cidrs_of at 1. cbn [args_mask]. rewrite Hs.
    cbn [negb].
    change (fun (cidr0 : string) (out0 : list string) =>
              for_each (report fuel (cli_flags (mkArgs (map (fun mask => cidr ++ "/" ++ mask) (m :: ms)) None q b d h)))
                       (cidrs_of (mkArgs (map (fun mask => cidr ++ "/" ++ mask) (m :: ms)) None q b d h) cidr0) out0)
      with (fun (x : string) (o : list string) =>
              for_each (report fuel (cli_flags (mkArgs [cidr] (Some (m :: ms)) q b d h))) [x] o).
    now rewrite for_each_singletons.
  - intros cidr mk out Hs. unfold main. cbn [args_addresses].
    rewrite !for_each_one. unfold cidrs_of. cbn [args_mask]. rewrite Hs.
    destruct mk as [[| m ms] |]; reflexivity.
Qed.

Lemma X22_witness :
  main 2 (mkArgs ["1.2.3.4"] (Some ["24"; "8"]) false false false false) []
  = main 2 (mkArgs (map (fun mask => "1.2.3.4" ++ "/" ++ mask) ["24"; "8"]) None
                   false false false false) []
  /\ main 2 (mkArgs ["1.2.3.4/16"] (Some ["24"]) false false false false) []
     = main 2 (mkArgs ["1.2.3.4/16"] None false false false false) [].
Proof.
  split.
  - apply (proj1 (X22_mask_option 2 false false false false)). reflexivity.
  - apply (proj2 (X22_mask_option 2 false false false false)). reflexivity.
Defined.
